(** * A PDF question-answering pipeline: ingestion, index life cycle, chat

    A shallow embedding of [streamlit_app.py]: the session dictionary, the
    persistent directory [chroma_db], and the functions
    [extract_text_from_pdf], [create_vector_db], [process_question],
    [delete_vector_db] and [main].  Calls to the file system, the vector
    store and the language model take their outcome from an environment
    record, and what a run does to the outside is recorded in a trace.

    The text splitter and the multi-query retriever are library objects
    the program only instantiates.  They enter the program's functions as
    parameters.  The module [Chunker] describes the splitter as the
    specification words it; the module [QueryExpander] holds the
    specification's contract for query expansion, next to which
    [generate_queries] gives the queries the retriever of the program
    runs.

    The file has two parts: the definitions, then the facts. *)

From Stdlib Require Import List String Ascii Arith Bool Lia.
Import ListNotations.

Set Implicit Arguments.
Set Warnings "-abstract-large-number".

(* ===================================================================== *)
(** * Part I: definitions *)
(* ===================================================================== *)

(** ** Lists without repeats *)

Section Unique.

Variable A : Type.
Variable A_eq_dec : forall x y : A, {x = y} + {x <> y}.

Fixpoint unique_from (seen l : list A) : list A :=
  match l with
  | [] => []
  | x :: xs =>
      if in_dec A_eq_dec x seen then unique_from seen xs
      else x :: unique_from (x :: seen) xs
  end.

(** A list without its repeated elements, first occurrences kept, in the
    order they had. *)
Definition unique (l : list A) : list A := unique_from [] l.

End Unique.

(** ** The chunker *)

Module Chunker.

(** A chunk is a span of the text block it was cut from. *)
Record Chunk := mkChunk {
  start_offset : nat;
  length : nat;
  source : string
}.

Record TextBlock (A : Type) := mkTextBlock {
  text : list A;
  source_name : string
}.

Inductive SplitError := ConfigurationError.

Section SlidingWindow.

(** The units of a text: characters or bytes. *)
Variable A : Type.

(** Window size and overlap. *)
Variables (m o : nat).

(** Distance between the starts of two consecutive windows. *)
Definition stride : nat := m - o.

(** Modelled from the spec: the sliding window of the Chunker, the part of
    [RecursiveCharacterTextSplitter] that decides where chunks start and
    end.  A window of [m] units is cut at [start]; when what is left fits
    in one window it is the last chunk, otherwise the next window starts
    [m - o] units further.  [fuel] bounds the number of windows. *)
Fixpoint windows (src : string) (fuel start len : nat) : list Chunk :=
  match fuel with
  | 0 => []
  | S fuel' =>
      if len - start <=? m
      then [mkChunk start (len - start) src]
      else mkChunk start m src :: windows src fuel' (start + stride) len
  end.

(** The units a chunk spans. *)
Definition chunk_text (t : list A) (c : Chunk) : list A :=
  firstn (length c) (skipn (start_offset c) t).

(** Modelled from the spec: [split(textblock, max_size, overlap)], missing
    from the sources because the program takes its splitter from a
    library.  An overlap that is not smaller than the window is a
    configuration error. *)
Definition split_with (tb : TextBlock A) : SplitError + list Chunk :=
  if m <=? o then inl ConfigurationError
  else inr (windows (source_name tb) (S (List.length (text tb)))
                    0 (List.length (text tb))).

(** The chunks' spans glued back together, each chunk after the first
    without the [o] units it shares with the chunk before it. *)
Definition reassemble (t : list A) (cs : list Chunk) : list A :=
  match cs with
  | [] => []
  | c :: rest => chunk_text t c ++ flat_map (fun d => skipn o (chunk_text t d)) rest
  end.

End SlidingWindow.

(** The program's configuration:
    [RecursiveCharacterTextSplitter(chunk_size=7500, chunk_overlap=100)]. *)
Definition max_size : nat := 7500.
Definition overlap : nat := 100.

(** Modelled from the spec: [split(textblock, max_size=7500, overlap=100)],
    standing for the splitter object [create_vector_db] builds; the library
    class it instantiates is missing from the sources. *)
Definition split (A : Type) (tb : TextBlock A) : SplitError + list Chunk :=
  split_with max_size overlap tb.

(** Units that lie in both of two spans, the second starting inside the
    first. *)
Definition shared_units (c1 c2 : Chunk) : nat :=
  start_offset c1 + length c1 - start_offset c2.

(** A text of 17000 units, as the end-to-end scenario of the spec has it:
    1000 repetitions of a sentence of 17 units. *)
Definition sky_text : list nat := List.concat (repeat (seq 0 17) 1000).

End Chunker.

(** ** The lines of a text *)

Definition newline : ascii := ascii_of_nat 10.

(** The newline-delimited pieces of a text, as Python's [s.split] gives
    them for the line feed. *)
Fixpoint split_lines (s : string) : list string :=
  match s with
  | EmptyString => [EmptyString]
  | String c rest =>
      if Ascii.eqb c newline then EmptyString :: split_lines rest
      else match split_lines rest with
           | [] => [String c EmptyString]
           | l :: ls => String c l :: ls
           end
  end.

Definition nonempty (s : string) : bool :=
  match s with EmptyString => false | String _ _ => true end.

(** ** The query expander of the specification *)

Module QueryExpander.

(** Modelled from the spec: the variants the language model generated, one
    per line of its output. *)
Definition generated_variants (output : string) : list string :=
  filter nonempty (split_lines output).

(** Exactly three variants were asked for. *)
Definition well_formed (output : string) : bool :=
  List.length (generated_variants output) =? 3.

(** Modelled from the spec: [expand(question, llm)], missing from the
    sources because the program leaves query expansion to
    [MultiQueryRetriever].  The result is the question together with the
    three generated variants, or the question alone when the output does
    not hold exactly three. *)
Definition expand (question output : string) : list string :=
  if well_formed output
  then question :: filter (fun v => negb (String.eqb v question))
                          (generated_variants output)
  else [question].

End QueryExpander.

(** ** The program's data *)

Open Scope string_scope.

(** [langchain_core.documents.Document]: text and the [source] entry of its
    metadata dictionary, the only entry the program writes. *)
Record Document := mkDocument {
  page_content : string;
  metadata_source : string
}.

(** A page of a PDF as pdfplumber shows it: [extract_text()] gives the
    page's text or nothing. *)
Record Page := mkPage { extract_text : option string }.

Inductive Image := to_image (p : Page).

(** The uploaded file: its name and, when pdfplumber can open its bytes,
    its pages. *)
Record UploadedFile := mkUpload {
  name : string;
  pages : option (list Page)
}.

(** The [Chroma] object kept in the session: a handle on a named collection
    of a persistent client, not a copy of the collection. *)
Record Chroma := mkChroma {
  collection_name : string;
  persist_directory : string
}.

Record Message := mkMessage { role : string; content : string }.

(** An entry of [ollama.list()["models"]]. *)
Record ModelInfo := mkModelInfo { model_name : string }.

(** [st.session_state], with the four keys the program uses; [None] is a
    key that is not in the dictionary.  The value under ["vector_db"] is
    itself [None] or a [Chroma] object. *)
Record SessionState := mkSession {
  messages : option (list Message);
  vector_db : option (option Chroma);
  file_upload : option UploadedFile;
  pdf_pages : option (list Image)
}.

(** The directory [chroma_db]: absent, or present with or without the
    collection [myRAG]. *)
Inductive Storage :=
| NoDirectory
| Directory (myRAG : option (list Document)).

Inductive Level := INFO | WARNING | ERROR.

(** What a run does to the outside, in order: what the program's own
    [logger] writes (the fixed text of the message, without the values the
    program formats into it), the pauses it takes, the directories it
    tries to remove, the calls of the language model, the queries put to
    the vector store, and what it shows the user. *)
Inductive Event :=
| Log (level : Level) (msg : string)
| Sleep (milliseconds : nat)
| Rmtree (path : string) (ok : bool)
| LlmCall (model prompt : string)
| Search (query : string)
| StSuccess (msg : string)
| StWarning (msg : string)
| StError (msg : string)
| StMarkdown (msg : string).

Record World := mkWorld {
  session : SessionState;
  chroma_db : Storage;
  temp_dirs : nat;
  trace : list Event
}.

(** Python exceptions: those [except Exception] catches, and the one
    [st.rerun()] raises to end the run, which it does not catch. *)
Inductive Exn :=
| Exception (what : string)
| RerunException.

(** How [Chroma.from_documents] ends: the collection holds all chunks, or
    the call raised.  The store embeds the chunks it is given and then
    writes them in one call, so a call that raises has written none. *)
Inductive BuildOutcome :=
| Built
| BuildFailed.

(** The outcomes of the calls into the file system, the vector store and
    the language model, one field per call site. *)
Record Env := mkEnv {
  (* create_vector_db *)
  old_rmtree_ok : bool;
  new_client_ok : bool;
  mkdtemp_ok : bool;
  write_ok : bool;
  from_documents : BuildOutcome;
  temp_rmtree_ok : bool;
  (* delete_vector_db *)
  del_client_ok : bool;
  list_collections_ok : bool;
  delete_collection_ok : bool;
  del_rmtree_ok : bool;
  retry_rmtree_ok : bool;
  (* process_question *)
  llm : string -> string -> option string;
  embed_query_ok : string -> bool
}.

(** ** Runs: state, trace and exceptions *)

Inductive Outcome (A : Type) :=
| Returned (a : A)
| Raised (e : Exn).
Arguments Returned {A} a.
Arguments Raised {A} e.

Definition Run (A : Type) : Type := World -> Outcome A * World.

Definition ret (A : Type) (a : A) : Run A := fun w => (Returned a, w).

Definition raise (A : Type) (e : Exn) : Run A := fun w => (Raised e, w).
Arguments raise {A} e.

Definition bind (A B : Type) (c : Run A) (k : A -> Run B) : Run B :=
  fun w =>
    match c w with
    | (Returned a, w') => k a w'
    | (Raised e, w') => (Raised e, w')
    end.

Declare Scope run_scope.
Delimit Scope run_scope with run.
Notation "x <- c ;; k" := (bind c (fun x => k))
  (at level 61, c at next level, right associativity) : run_scope.
Notation "c ;; k" := (bind c (fun _ => k))
  (at level 61, right associativity) : run_scope.
Open Scope run_scope.

(** [try: body except Exception as e: handler(e)]. *)
Definition try_except (A : Type) (body : Run A) (handler : string -> Run A) : Run A :=
  fun w =>
    match body w with
    | (Raised (Exception what), w') => handler what w'
    | r => r
    end.

(** [try: body finally: cleanup]: the cleanup runs either way, and what
    the body returned or raised stands unless the cleanup raises. *)
Definition try_finally (A : Type) (body : Run A) (cleanup : Run unit) : Run A :=
  fun w =>
    match body w with
    | (r, w') =>
        match cleanup w' with
        | (Returned _, w'') => (r, w'')
        | (Raised e, w'') => (Raised e, w'')
        end
    end.

Definition emit (ev : Event) : Run unit :=
  fun w => (Returned tt,
            mkWorld (session w) (chroma_db w) (temp_dirs w) (trace w ++ [ev])).

Definition log (level : Level) (msg : string) : Run unit := emit (Log level msg).

Definition sleep (milliseconds : nat) : Run unit := emit (Sleep milliseconds).

Definition get_storage : Run Storage := fun w => (Returned (chroma_db w), w).

Definition set_storage (s : Storage) : Run unit :=
  fun w => (Returned tt, mkWorld (session w) s (temp_dirs w) (trace w)).

Definition get_session : Run SessionState := fun w => (Returned (session w), w).

Definition set_session (s : SessionState) : Run unit :=
  fun w => (Returned tt, mkWorld s (chroma_db w) (temp_dirs w) (trace w)).

Definition set_temp_dirs (n : nat) : Run unit :=
  fun w => (Returned tt, mkWorld (session w) (chroma_db w) n (trace w)).

Definition get_temp_dirs : Run nat := fun w => (Returned (temp_dirs w), w).


Definition attempt (A : Type) (c : Run A) : Run (Outcome A) :=
  fun w => let (r, w') := c w in (Returned r, w').

Definition resume (A : Type) (r : Outcome A) : Run A :=
  match r with
  | Returned a => ret a
  | Raised e => raise e
  end.

(** [for x in xs: f(x)], collecting the results. *)
Fixpoint for_each (A B : Type) (f : A -> Run B) (xs : list A) : Run (list B) :=
  match xs with
  | [] => ret []
  | x :: rest => y <- f x ;; ys <- for_each f rest ;; ret (y :: ys)
  end.

(** ** The session dictionary *)

Definition set_messages (v : list Message) : Run unit :=
  ss <- get_session ;;
  set_session (mkSession (Some v) (vector_db ss) (file_upload ss) (pdf_pages ss)).

Definition set_vector_db (v : option Chroma) : Run unit :=
  ss <- get_session ;;
  set_session (mkSession (messages ss) (Some v) (file_upload ss) (pdf_pages ss)).

Definition set_file_upload (v : UploadedFile) : Run unit :=
  ss <- get_session ;;
  set_session (mkSession (messages ss) (vector_db ss) (Some v) (pdf_pages ss)).

Definition set_pdf_pages (v : list Image) : Run unit :=
  ss <- get_session ;;
  set_session (mkSession (messages ss) (vector_db ss) (file_upload ss) (Some v)).

(** [st.session_state["vector_db"]]; a missing key is a [KeyError]. *)
Definition get_vector_db : Run (option Chroma) :=
  ss <- get_session ;;
  match vector_db ss with
  | Some v => ret v
  | None => raise (Exception "KeyError: vector_db")
  end.

(** [st.session_state["messages"].append(m)]. *)
Definition append_message (m : Message) : Run unit :=
  ss <- get_session ;;
  match messages ss with
  | Some ms => set_messages (ms ++ [m])
  | None => raise (Exception "KeyError: messages")
  end.

(** [st.session_state.pop(key, None)] for the three keys
    [delete_vector_db] removes. *)
Definition pop_pdf_pages : Run unit :=
  ss <- get_session ;;
  set_session (mkSession (messages ss) (vector_db ss) (file_upload ss) None).

Definition pop_file_upload : Run unit :=
  ss <- get_session ;;
  set_session (mkSession (messages ss) (vector_db ss) None (pdf_pages ss)).

Definition pop_vector_db : Run unit :=
  ss <- get_session ;;
  set_session (mkSession (messages ss) None (file_upload ss) (pdf_pages ss)).

(** The conversation so far; no key yet is no turn yet. *)
Definition history (w : World) : list Message :=
  match messages (session w) with
  | Some ms => ms
  | None => []
  end.

(** The session's place in the index life cycle, as a caller sees it
    between two runs: [Ready] when the session holds a handle, [Empty]
    otherwise.  [Building] and [Destroying] last only while a run is inside
    [create_vector_db] or [delete_vector_db]. *)
Inductive Status := Empty | Building | Ready | Destroying.

Definition status (w : World) : Status :=
  match vector_db (session w) with
  | Some (Some _) => Ready
  | _ => Empty
  end.

(** ** The directory and the vector store *)

Definition CHROMA_DIR : string := "chroma_db".
Definition COLLECTION : string := "myRAG".

(** [os.path.exists("chroma_db")]. *)
Definition path_exists : Run bool :=
  s <- get_storage ;;
  ret (match s with NoDirectory => false | Directory _ => true end).

(** [shutil.rmtree("chroma_db")]: the directory goes, or the call raises
    and the directory stays as it was. *)
Definition rmtree_chroma_db (ok : bool) : Run unit :=
  s <- get_storage ;;
  match s with
  | NoDirectory =>
      emit (Rmtree CHROMA_DIR false) ;; raise (Exception "FileNotFoundError")
  | Directory _ =>
      emit (Rmtree CHROMA_DIR ok) ;;
      if ok then set_storage NoDirectory else raise (Exception "OSError")
  end.

(** [get_chroma_client()]: a persistent client on [chroma_db].  The client
    described is one that is new to the process: it makes the directory
    when there is none.  chromadb keeps the client of a path for the life
    of the process; a later call for a path whose directory was removed in
    between raises, or gets the old client back without the directory
    being made again.  What such a call leaves in storage is not described
    here. *)
Definition get_chroma_client (ok : bool) : Run unit :=
  if ok then
    s <- get_storage ;;
    match s with
    | NoDirectory => set_storage (Directory None)
    | Directory _ => ret tt
    end
  else raise (Exception "chromadb: client").

(** [[col.name for col in client.list_collections()]]. *)
Definition list_collections (ok : bool) : Run (list string) :=
  if ok then
    s <- get_storage ;;
    ret (match s with Directory (Some _) => [COLLECTION] | _ => [] end)
  else raise (Exception "chromadb: list_collections").

(** [client.delete_collection("myRAG")]. *)
Definition delete_collection (ok : bool) : Run unit :=
  if ok then set_storage (Directory None)
  else raise (Exception "chromadb: delete_collection").

Definition stored_documents (s : Storage) : list Document :=
  match s with
  | Directory (Some docs) => docs
  | _ => []
  end.

(** [Chroma.from_documents(documents=chunks, ..., collection_name="myRAG",
    persist_directory="chroma_db", client=client)] followed by
    [vector_db.persist()]: the collection is taken as it is or made empty,
    and the chunks are added to it, all of them or, when the call raises,
    none. *)
Definition chroma_from_documents (outcome : BuildOutcome) (chunks : list Document)
    : Run Chroma :=
  s <- get_storage ;;
  match outcome with
  | Built =>
      set_storage (Directory (Some (stored_documents s ++ chunks)%list)) ;;
      ret (mkChroma COLLECTION CHROMA_DIR)
  | BuildFailed =>
      set_storage (Directory (Some (stored_documents s))) ;;
      raise (Exception "Chroma.from_documents")
  end.

(** ** Strings as Python prints and trims them *)

(** A character stands for the code point of the same number: the strings
    here are the Python strings over the code points below 256. *)

Definition TAB : ascii := ascii_of_nat 9.
Definition CARRIAGE_RETURN : ascii := ascii_of_nat 13.
Definition DOUBLE_QUOTE : ascii := ascii_of_nat 34.
Definition SINGLE_QUOTE : ascii := ascii_of_nat 39.
Definition BACKSLASH : ascii := ascii_of_nat 92.

Definition hex_digit (n : nat) : ascii :=
  nth n (list_ascii_of_string "0123456789abcdef") "0"%char.

(** The escape [\xhh] of a character, [hh] its number in hexadecimal. *)
Definition hex_escape (c : ascii) : string :=
  let n := nat_of_ascii c in
  String BACKSLASH
    (String "x"%char
       (String (hex_digit (n / 16)) (String (hex_digit (n mod 16)) ""))).

(** [str.isprintable] on one character: the ASCII characters from the
    space to the tilde, and the characters from 161 on but the soft
    hyphen. *)
Definition is_printable (c : ascii) : bool :=
  let n := nat_of_ascii c in
  ((32 <=? n) && (n <? 127) || (161 <=? n) && negb (n =? 173))%nat.

(** One character inside [repr(s)], the string being quoted with
    [quote]. *)
Definition repr_char (quote c : ascii) : string :=
  if Ascii.eqb c quote || Ascii.eqb c BACKSLASH then String BACKSLASH (String c "")
  else if Ascii.eqb c TAB then String BACKSLASH "t"
  else if Ascii.eqb c newline then String BACKSLASH "n"
  else if Ascii.eqb c CARRIAGE_RETURN then String BACKSLASH "r"
  else if is_printable c then String c ""
  else hex_escape c.

Fixpoint repr_chars (quote : ascii) (s : string) : string :=
  match s with
  | EmptyString => ""
  | String c rest => repr_char quote c ++ repr_chars quote rest
  end.

Fixpoint contains (c : ascii) (s : string) : bool :=
  match s with
  | EmptyString => false
  | String c' rest => Ascii.eqb c' c || contains c rest
  end.

(** [repr(s)] for a string [s]: between single quotes, or between double
    quotes when [s] holds a single quote and no double quote. *)
Definition python_repr (s : string) : string :=
  let quote :=
    if contains SINGLE_QUOTE s && negb (contains DOUBLE_QUOTE s)
    then DOUBLE_QUOTE else SINGLE_QUOTE in
  String quote (repr_chars quote s ++ String quote "").

(** [str.isspace] on one character. *)
Definition is_space (c : ascii) : bool :=
  let n := nat_of_ascii c in
  ((9 <=? n) && (n <=? 13) || (28 <=? n) && (n <=? 32)
   || (n =? 133) || (n =? 160))%nat.

Fixpoint lstrip (s : string) : string :=
  match s with
  | EmptyString => ""
  | String c rest => if is_space c then lstrip rest else s
  end.

Fixpoint rstrip (s : string) : string :=
  match s with
  | EmptyString => ""
  | String c rest =>
      match rstrip rest with
      | EmptyString => if is_space c then "" else String c ""
      | kept => String c kept
      end
  end.

(** [s.strip()]. *)
Definition strip (s : string) : string := rstrip (lstrip s).

(** The queries [MultiQueryRetriever] runs for a question: what its
    [LineListOutputParser] makes of the language model's output, the
    non-empty lines of the output without the white space at its ends.
    The program builds the retriever without [include_original], so the
    question itself is not added to them. *)
Definition generate_queries (question output : string) : list string :=
  filter nonempty (split_lines (strip output)).


Definition Document_eq_dec (x y : Document) : {x = y} + {x <> y}.
Proof. decide equality; apply string_dec. Defined.

Section Ranking.

Variable key : Document -> nat.

Fixpoint insert_by (x : Document) (l : list Document) : list Document :=
  match l with
  | [] => [x]
  | y :: ys => if (key x <=? key y)%nat then x :: l else y :: insert_by x ys
  end.

(** The documents by increasing key, ties in stored order. *)
Definition sort_by (l : list Document) : list Document :=
  fold_right insert_by [] l.

End Ranking.


(** ** The program *)

Section Program.

(** [RecursiveCharacterTextSplitter(chunk_size=7500, chunk_overlap=100)]
    as a function from a text to the texts of its chunks. *)
Variable split_text : string -> list string.

(** Distance between the embeddings of a query and of a stored chunk
    ([OllamaEmbeddings(model="nomic-embed-text")] and the store's
    metric). *)
Variable distance : string -> string -> nat.

(** The queries [MultiQueryRetriever] runs for a question, given what the
    language model answered to [QUERY_PROMPT]. *)
Variable queries_of : string -> string -> list string.

(** *** extract_model_names *)

Definition extract_model_names (models_info : list ModelInfo) : list string :=
  map model_name models_info.

(** *** extract_text_from_pdf *)

Definition page_text (p : Page) : string :=
  match extract_text p with
  | Some t => t
  | None => ""
  end.

Definition extract_text_from_pdf (pdf : UploadedFile) : Run string :=
  log INFO "Extracting text from PDF" ;;
  match pages pdf with
  | None => raise (Exception "pdfplumber: not a PDF")
  | Some ps => ret (fold_left (fun text p => text ++ page_text p) ps "")
  end.

(** *** create_vector_db *)

(** [text_splitter.split_documents([doc])]: every chunk keeps the metadata
    of the document it comes from. *)
Definition split_documents (doc : Document) : list Document :=
  map (fun chunk => mkDocument chunk (metadata_source doc))
      (split_text (page_content doc)).

Definition mkdtemp (ok : bool) : Run unit :=
  if ok then n <- get_temp_dirs ;; set_temp_dirs (S n)
  else raise (Exception "OSError: mkdtemp").

Definition write_upload (ok : bool) : Run unit :=
  if ok then log INFO "File saved to temporary path"
  else raise (Exception "OSError: write").

(** [shutil.rmtree(temp_dir)]; the trace names the path by its variable. *)
Definition rmtree_temp_dir (ok : bool) : Run unit :=
  emit (Rmtree "temp_dir" ok) ;;
  if ok then n <- get_temp_dirs ;; set_temp_dirs (pred n)
  else raise (Exception "OSError").

Definition create_vector_db (env : Env) (file_upload : UploadedFile) : Run Chroma :=
  log INFO "Creating vector DB from file upload" ;;
  (* Clean up any existing database *)
  present <- path_exists ;;
  (if (present : bool) then
     try_except
       (rmtree_chroma_db (old_rmtree_ok env) ;;
        log INFO "Removed existing chroma_db" ;;
        sleep 500)
       (fun e => log WARNING "Could not remove existing directory")
   else ret tt) ;;
  (* Get a fresh client instance *)
  get_chroma_client (new_client_ok env) ;;
  (* [temp_dir] is bound once [tempfile.mkdtemp()] has returned, inside
     the [try] *)
  temp_dir <- attempt (mkdtemp (mkdtemp_ok env)) ;;
  try_finally
    (resume temp_dir ;;
     write_upload (write_ok env) ;;
     text <- extract_text_from_pdf file_upload ;;
     let doc := mkDocument text (name file_upload) in
     let chunks := split_documents doc in
     log INFO "Document split into chunks" ;;
     vector_db <- chroma_from_documents (from_documents env) chunks ;;
     log INFO "Vector DB created and persisted" ;;
     ret vector_db)
    (try_except
       (match temp_dir with
        | Returned _ =>
            rmtree_temp_dir (temp_rmtree_ok env) ;;
            log INFO "Temporary directory removed"
        | Raised _ => raise (Exception "UnboundLocalError: temp_dir")
        end)
       (fun e => log WARNING "Error removing temp directory")).

(** *** process_question *)

Definition QUERY_PROMPT (question : string) : string :=
  "You are an AI language model assistant. Your task is to generate 3
        different versions of the given user question to retrieve relevant documents from
        a vector database. By generating multiple perspectives on the user question, your
        goal is to help the user overcome some of the limitations of the distance-based
        similarity search. Provide these alternative questions separated by newlines.
        Original question: " ++ question.

Definition template (context question : string) : string :=
  "Answer the question based ONLY on the following context:
    " ++ context ++ "
    Question: " ++ question ++ "
    If you don't know the answer, just say that you don't know, don't try to make up an answer.
    Only provide the answer from the " ++ context ++ ", nothing else.
    Add snippets of the context you used to answer the question.
    ".

(** One call of [ChatOllama(model=selected_model, temperature=0)]. *)
Definition invoke_llm (env : Env) (model prompt : string) : Run string :=
  emit (LlmCall model prompt) ;;
  match llm env model prompt with
  | Some output => ret output
  | None => raise (Exception "ollama: no answer")
  end.

(** [vector_db.similarity_search(query)]: the four stored chunks nearest
    to the query, read from the collection the handle names. *)
Definition similarity_search (vector_db : Chroma) (query : string)
    : Run (list Document) :=
  s <- get_storage ;;
  match s with
  | Directory (Some docs) =>
      ret (firstn 4 (sort_by (fun d => distance query (page_content d)) docs))
  | _ => raise (Exception "chromadb: no collection")
  end.

(** [vector_db.as_retriever()] invoked on a query: the query is embedded
    ([OllamaEmbeddings]) and the store is searched for it. *)
Definition retriever_invoke (env : Env) (vector_db : Chroma) (query : string)
    : Run (list Document) :=
  emit (Search query) ;;
  if embed_query_ok env query then similarity_search vector_db query
  else raise (Exception "ollama: embed_query").

(** [MultiQueryRetriever.from_llm(vector_db.as_retriever(), llm,
    prompt=QUERY_PROMPT)], invoked on a question: one call of the language
    model, one search per query, the results merged without repeats. *)
Definition multi_query_retriever (env : Env) (vector_db : Chroma)
    (model question : string) : Run (list Document) :=
  output <- invoke_llm env model (QUERY_PROMPT question) ;;
  found <- for_each (retriever_invoke env vector_db) (queries_of question output) ;;
  ret (unique Document_eq_dec (List.concat found)).

(** The retrieved documents as the prompt template prints them: the
    [repr] of each document, its texts in Python's [repr]. *)
Definition show_document (d : Document) : string :=
  "Document(metadata={'source': " ++ python_repr (metadata_source d)
    ++ "}, page_content=" ++ python_repr (page_content d) ++ ")".

Definition show_documents (ds : list Document) : string :=
  "[" ++ String.concat ", " (map show_document ds) ++ "]".

Definition process_question (env : Env) (question : string)
    (vector_db : Chroma) (selected_model : string) : Run string :=
  log INFO "Processing question" ;;
  context <- multi_query_retriever env vector_db selected_model question ;;
  response <- invoke_llm env selected_model
                (template (show_documents context) question) ;;
  log INFO "Question processed and response generated" ;;
  ret response.

(** *** extract_all_pages_as_images *)

(** The function as it runs when Streamlit holds no cached result for the
    file ([st.cache_data]). *)

Definition extract_all_pages_as_images (file_upload : UploadedFile)
    : Run (list Image) :=
  log INFO "Extracting all pages as images" ;;
  match pages file_upload with
  | None => raise (Exception "pdfplumber: not a PDF")
  | Some ps =>
      log INFO "PDF pages extracted as images" ;;
      ret (map to_image ps)
  end.

(** *** delete_vector_db *)

Definition delete_vector_db (env : Env) : Run unit :=
  log INFO "Deleting vector DB" ;;
  try_except
    ((* Remove the persistence directory *)
     present <- path_exists ;;
     (if (present : bool) then
        try_except
          (get_chroma_client (del_client_ok env) ;;
           (* Delete the collection if it exists *)
           names <- list_collections (list_collections_ok env) ;;
           (if existsb (String.eqb COLLECTION) names then
              delete_collection (delete_collection_ok env) ;;
              log INFO "Deleted myRAG collection"
            else ret tt) ;;
           (* Remove the directory *)
           rmtree_chroma_db (del_rmtree_ok env) ;;
           log INFO "Removed chroma_db directory")
          (fun e =>
             log ERROR "Error cleaning up chroma_db" ;;
             sleep 2000 ;;
             try_except
               (rmtree_chroma_db (retry_rmtree_ok env) ;;
                log INFO "Removed chroma_db directory after retry")
               (fun e2 =>
                  log ERROR "Failed to remove chroma_db directory after retry"))
      else ret tt) ;;
     (* Clear session state *)
     pop_pdf_pages ;;
     pop_file_upload ;;
     pop_vector_db ;;
     emit (StSuccess "Collection and temporary files deleted successfully.") ;;
     log INFO "Vector DB and related session state cleared" ;;
     (* Rerun the app to reset the state *)
     sleep 1000 ;;
     raise RerunException)
    (fun e =>
       emit (StError "Error deleting vector DB") ;;
       log ERROR "Error deleting vector DB").

(** *** main *)

(** What the widgets hold when the script runs: the models Ollama lists
    and the one picked, the uploaded file, the delete button, and the chat
    input. *)
Record Inputs := mkInputs {
  models_info : list ModelInfo;
  model_choice : nat;
  uploaded : option UploadedFile;
  delete_clicked : bool;
  chat_input : option string
}.

(** [if "messages" not in st.session_state: st.session_state["messages"] = []] *)
Definition init_messages : Run unit :=
  ss <- get_session ;;
  match messages ss with
  | None => set_messages []
  | Some _ => ret tt
  end.

(** [if "vector_db" not in st.session_state: st.session_state["vector_db"] = None] *)
Definition init_vector_db : Run unit :=
  ss <- get_session ;;
  match vector_db ss with
  | None => set_vector_db None
  | Some _ => ret tt
  end.

(** The loop that shows the conversation so far:
    [for message in st.session_state["messages"]: ...
    st.markdown(message["content"])]. *)
Definition render_messages : Run unit :=
  ss <- get_session ;;
  match messages ss with
  | Some ms => for_each (fun m => emit (StMarkdown (content m))) ms ;; ret tt
  | None => raise (Exception "KeyError: messages")
  end.

(** The script, from the point where [ollama.list()] has returned.  The
    two lines [extract_model_names] logs when Streamlit has no cached
    result for the list, and the layout widgets, are not in the trace. *)
Definition main (env : Env) (inp : Inputs) : Run unit :=
  let available_models := extract_model_names (models_info inp) in
  init_messages ;;
  init_vector_db ;;
  (* [selected_model] is bound only when there are models to pick from *)
  let selected_model :=
    match available_models with
    | [] => None
    | first :: _ => Some (nth (model_choice inp) available_models first)
    end in
  (match uploaded inp with
   | Some file_upload =>
       set_file_upload file_upload ;;
       current <- get_vector_db ;;
       (match current with
        | None =>
            new_db <- create_vector_db env file_upload ;;
            set_vector_db (Some new_db)
        | Some _ => ret tt
        end) ;;
       images <- extract_all_pages_as_images file_upload ;;
       set_pdf_pages images
   | None => ret tt
   end) ;;
  (if delete_clicked inp then delete_vector_db env else ret tt) ;;
  render_messages ;;
  match chat_input inp with
  | Some prompt =>
      try_except
        (append_message (mkMessage "user" prompt) ;;
         emit (StMarkdown prompt) ;;
         current <- get_vector_db ;;
         response <-
           (match current with
            | Some db =>
                model <- (match selected_model with
                          | Some m => ret m
                          | None => raise (Exception "NameError: selected_model")
                          end) ;;
                r <- process_question env prompt db model ;;
                emit (StMarkdown r) ;;
                ret (Some r)
            | None =>
                emit (StWarning "Please upload a PDF file first.") ;;
                ret None
            end) ;;
         current <- get_vector_db ;;
         match current, response with
         | Some _, Some r => append_message (mkMessage "assistant" r)
         | _, _ => ret tt
         end)
        (fun e =>
           emit (StError e) ;;
           log ERROR "Error processing prompt")
  | None =>
      current <- get_vector_db ;;
      match current with
      | None => emit (StWarning "Upload a PDF file to begin chat...")
      | Some _ => ret tt
      end
  end.

End Program.


(** ** The four operations a caller sees *)

Section Operations.

Variable split_text : string -> list string.
Variable distance : string -> string -> nat.
Variable queries_of : string -> string -> list string.

(** [ingest(document)]: a run of the script with the document in the
    uploader. *)
Definition ingest (env : Env) (models : list ModelInfo) (document : UploadedFile)
    : Run unit :=
  main split_text distance queries_of env
       (mkInputs models 0 (Some document) false None).

(** [ask(question)]: a run of the script with the question in the chat
    input and whatever the uploader holds. *)
Definition ask (env : Env) (models : list ModelInfo)
    (in_uploader : option UploadedFile) (question : string) : Run unit :=
  main split_text distance queries_of env
       (mkInputs models 0 in_uploader false (Some question)).

(** [reset()]: the delete button's action. *)
Definition reset (env : Env) : Run unit := delete_vector_db env.

(** [search]: the nearest stored chunks through the session's handle. *)
Definition search (query : string) : Run (list Document) :=
  current <- get_vector_db ;;
  match current with
  | Some db => similarity_search distance db query
  | None => raise (Exception "no index")
  end.

End Operations.

(** The events a run added to the trace. *)
Definition added (before after : World) (events : list Event) : Prop :=
  trace after = (trace before ++ events)%list.

Definition is_llm_call (ev : Event) : bool :=
  match ev with LlmCall _ _ => true | _ => false end.

Definition is_st_error (ev : Event) : bool :=
  match ev with StError _ => true | _ => false end.

Definition is_sleep (ev : Event) : bool :=
  match ev with Sleep _ => true | _ => false end.

Definition is_rmtree_chroma_db (ev : Event) : bool :=
  match ev with Rmtree path _ => String.eqb path CHROMA_DIR | _ => false end.

Definition NOT_READY_WARNING : string := "Please upload a PDF file first.".
Definition DELETED_MESSAGE : string :=
  "Collection and temporary files deleted successfully.".

(** ** Relations between the world before and after a run *)

(** A computation respects a relation between worlds when every run of it,
    returning or raising, takes a world to a related one. *)
Definition respects (R : World -> World -> Prop) (A : Type) (c : Run A) : Prop :=
  forall w r w', c w = (r, w') -> R w w'.

Definition same_session (w w' : World) : Prop := session w' = session w.

Definition same_messages (w w' : World) : Prop :=
  messages (session w') = messages (session w).

Definition history_grows (w w' : World) : Prop :=
  exists new, history w' = (history w ++ new)%list.

(** ** Deleting the index: what is observed *)

(** Does the first clean-up of [delete_vector_db] go through?  It does when
    there is no directory, and otherwise when the client, the listing, the
    deletion of the collection (if there is one) and the removal of the
    directory all succeed. *)
Definition first_attempt_ok (env : Env) (s : Storage) : bool :=
  match s with
  | NoDirectory => true
  | Directory c =>
      del_client_ok env && list_collections_ok env
      && match c with Some _ => delete_collection_ok env | None => true end
      && del_rmtree_ok env
  end.

(** How [delete_vector_db] ends when nothing is in its way. *)
Definition SUCCESS_TAIL : list Event :=
  [StSuccess DELETED_MESSAGE;
   Log INFO "Vector DB and related session state cleared";
   Sleep 1000].

(** The clean-up's second attempt. *)
Definition RETRY_BLOCK (retry_ok : bool) : list Event :=
  [Log ERROR "Error cleaning up chroma_db";
   Sleep 2000;
   Rmtree CHROMA_DIR retry_ok;
   if retry_ok then Log INFO "Removed chroma_db directory after retry"
   else Log ERROR "Failed to remove chroma_db directory after retry"].

(** The run said "deleted successfully", and showed no error. *)
Definition reported_success (before after : World) : Prop :=
  exists events,
    added before after events /\
    In (StSuccess DELETED_MESSAGE) events /\
    existsb is_st_error events = false.

(** ** Building the index: what is observed *)

(** Do all steps of [create_vector_db] after the clean-up go through? *)
Definition build_ok (env : Env) (document : UploadedFile) : bool :=
  new_client_ok env && mkdtemp_ok env && write_ok env
  && match pages document with Some _ => true | None => false end
  && match from_documents env with Built => true | BuildFailed => false end.

(** Was the old directory out of the way when the build started? *)
Definition storage_cleared (env : Env) (s : Storage) : bool :=
  match s with
  | NoDirectory => true
  | Directory _ => old_rmtree_ok env
  end.

Definition has_source (source : string) (d : Document) : Prop :=
  metadata_source d = source.

(** The text [create_vector_db] extracts from a document that opens. *)
Definition text_of (ps : list Page) : string :=
  fold_left (fun text p => text ++ page_text p) ps "".

(** The chunks [create_vector_db] hands to the vector store. *)
Definition chunks_of (split_text : string -> list string) (document : UploadedFile)
    : list Document :=
  match pages document with
  | Some ps => split_documents split_text (mkDocument (text_of ps) (name document))
  | None => []
  end.

(** The world in which [main] calls [create_vector_db] when the session
    holds no index. *)
Definition before_build (document : UploadedFile) (w : World) : World :=
  mkWorld (mkSession (Some (history w)) (Some None) (Some document)
                     (pdf_pages (session w)))
          (chroma_db w) (temp_dirs w) (trace w).

(** What [main] does with the handle [create_vector_db] returned. *)
Definition after_build (document : UploadedFile) (db : Chroma) : Run unit :=
  set_vector_db (Some db) ;;
  images <- extract_all_pages_as_images document ;;
  set_pdf_pages images ;;
  render_messages.

(** ** Concrete documents and environments *)

Module Scenario.

(** The chunker of the specification, on Python strings. *)
Definition sliding_split_text (s : string) : list string :=
  let t := list_ascii_of_string s in
  match Chunker.split (Chunker.mkTextBlock t "") with
  | inr cs => map (fun c => string_of_list_ascii (Chunker.chunk_text t c)) cs
  | inl _ => []
  end.

(** All chunks equally near: the search answers in stored order. *)
Definition no_distance (query chunk : string) : nat := 0.

(** A language model that always says the same. *)
Definition stub_llm (model prompt : string) : option string :=
  Some "The sky is blue.".

Definition embeds_all (query : string) : bool := true.

(** Every call to the outside succeeds, with [model] as language model. *)
Definition with_llm (model : string -> string -> option string) : Env :=
  mkEnv true true true true Built true true true true true true model embeds_all.

(** Every call to the outside succeeds. *)
Definition all_ok : Env := with_llm stub_llm.

(** The directory cannot be removed by [delete_vector_db], neither at first
    nor on retry. *)
Definition locked : Env :=
  mkEnv true true true true Built true true true true false false stub_llm
        embeds_all.

(** The directory cannot be removed by [create_vector_db]. *)
Definition old_directory_locked : Env :=
  mkEnv false true true true Built true true true true true true stub_llm
        embeds_all.

(** [Chroma.from_documents] raises: the embedding provider is down. *)
Definition build_fails : Env :=
  mkEnv true true true true BuildFailed true true true true true true stub_llm
        embeds_all.







Definition models : list ModelInfo := [mkModelInfo "llama3"].

(** A new session on a machine without [chroma_db]. *)
Definition fresh : World := mkWorld (mkSession None None None None) NoDirectory 0 [].

Definition doc1 : UploadedFile := mkUpload "doc1.pdf" (Some [mkPage (Some "alpha")]).
Definition doc2 : UploadedFile := mkUpload "doc2.pdf" (Some [mkPage (Some "beta")]).

Fixpoint repeat_string (s : string) (n : nat) : string :=
  match n with
  | 0 => ""
  | S n' => s ++ repeat_string s n'
  end.

(** The document of the specification's end-to-end scenario. *)
Definition sky_pdf : UploadedFile :=
  mkUpload "sky.pdf" (Some [mkPage (Some (repeat_string "The sky is blue. " 1000))]).

Definition run_ingest (env : Env) (document : UploadedFile) : Run unit :=
  ingest sliding_split_text no_distance generate_queries env models document.

Definition run_ask (env : Env) (in_uploader : option UploadedFile) (question : string)
    : Run unit :=
  ask sliding_split_text no_distance generate_queries env models
      in_uploader question.

Definition run_search (query : string) : Run (list Document) :=
  search no_distance query.

(** The session after [doc1] was uploaded. *)
Definition indexed : World := snd (run_ingest all_ok doc1 fresh).

(** The session after a question was asked about [doc1]. *)
Definition chatted : World :=
  snd (run_ask all_ok (Some doc1) "What color is the sky?" indexed).

(** A new session on a machine where [doc1] was indexed earlier. *)
Definition new_session : World :=
  mkWorld (mkSession None None None None) (chroma_db indexed) 0 [].

End Scenario.

(** ** Further observations on a run *)

Definition has_text (p : Page) : bool :=
  match extract_text p with
  | Some _ => true
  | None => false
  end.

(** The handle [create_vector_db] returns. *)
Definition HANDLE : Chroma := mkChroma COLLECTION CHROMA_DIR.

(** How [create_vector_db] starts: one attempt to remove the directory
    when there is one, and a pause after a removal that went through. *)
Definition CLEANUP_EVENTS (env : Env) (s : Storage) : list Event :=
  match s with
  | NoDirectory => []
  | Directory _ =>
      if old_rmtree_ok env
      then [Rmtree CHROMA_DIR true; Log INFO "Removed existing chroma_db"; Sleep 500]
      else [Rmtree CHROMA_DIR false; Log WARNING "Could not remove existing directory"]
  end.

(** What a clean [delete_vector_db] does before it reports. *)
Definition DELETE_EVENTS (s : Storage) : list Event :=
  match s with
  | NoDirectory => []
  | Directory c =>
      (match c with
       | Some _ => [Log INFO "Deleted myRAG collection"]
       | None => []
       end)
      ++ [Rmtree CHROMA_DIR true; Log INFO "Removed chroma_db directory"]
  end.

(** ** A question, in closed form *)

Section Question.

Variable distance : string -> string -> nat.
Variable queries_of : string -> string -> list string.

(** What [vector_db.as_retriever()] answers to one query. *)
Definition nearest (docs : list Document) (query : string) : list Document :=
  firstn 4 (sort_by (fun d => distance query (page_content d)) docs).

(** What the searches for the queries find, one query after the other, or
    what the first search that fails raises: the query is embedded, then
    looked up in the collection. *)
Fixpoint found_for (env : Env) (s : Storage) (queries : list string)
    : string + list (list Document) :=
  match queries with
  | [] => inr []
  | q :: rest =>
      if embed_query_ok env q then
        match s with
        | Directory (Some docs) =>
            match found_for env s rest with
            | inr found => inr (nearest docs q :: found)
            | inl what => inl what
            end
        | _ => inl "chromadb: no collection"
        end
      else inl "ollama: embed_query"
  end.

(** The searches that are made: every query up to the first whose search
    fails, that one included. *)
Fixpoint searches (env : Env) (s : Storage) (queries : list string) : list Event :=
  match queries with
  | [] => []
  | q :: rest =>
      Search q
      :: (if embed_query_ok env q then
            match s with
            | Directory (Some _) => searches env s rest
            | _ => []
            end
          else [])
  end.

(** The context the retriever hands to the prompt, or what went wrong. *)
Definition context_of (env : Env) (s : Storage) (queries : list string)
    : string + list Document :=
  match found_for env s queries with
  | inr found => inr (unique Document_eq_dec (List.concat found))
  | inl what => inl what
  end.

(** The answer to a question, or what went wrong. *)
Definition answer_of (env : Env) (s : Storage) (model question : string)
    : string + string :=
  match llm env model (QUERY_PROMPT question) with
  | None => inl "ollama: no answer"
  | Some output =>
      match context_of env s (queries_of question output) with
      | inl what => inl what
      | inr context =>
          match llm env model (template (show_documents context) question) with
          | None => inl "ollama: no answer"
          | Some response => inr response
          end
      end
  end.

(** The calls of the language model a question leads to. *)
Definition model_calls (env : Env) (s : Storage) (model question : string)
    : list Event :=
  LlmCall model (QUERY_PROMPT question)
  :: match llm env model (QUERY_PROMPT question) with
     | None => []
     | Some output =>
         match context_of env s (queries_of question output) with
         | inl _ => []
         | inr context =>
             [LlmCall model (template (show_documents context) question)]
         end
     end.

(** The searches a question leads to. *)
Definition question_searches (env : Env) (s : Storage) (model question : string)
    : list Event :=
  match llm env model (QUERY_PROMPT question) with
  | None => []
  | Some output => searches env s (queries_of question output)
  end.

End Question.

Definition is_search (ev : Event) : bool :=
  match ev with Search _ => true | _ => false end.

(** The events of [process_question]: log lines, calls of the model and
    searches. *)
Definition is_question_event (ev : Event) : bool :=
  match ev with
  | Log _ _ | LlmCall _ _ | Search _ => true
  | _ => false
  end.

(** What the user is shown. *)
Definition is_shown (ev : Event) : bool :=
  match ev with
  | StSuccess _ | StWarning _ | StError _ | StMarkdown _ => true
  | _ => false
  end.

(** The conversation as [render_messages] shows it. *)
Definition rendered (ms : list Message) : list Event :=
  map (fun m => StMarkdown (content m)) ms.

(** ** What a run adds to the trace *)

(** The events of the chat: a call of the language model, or a message
    written into the chat. *)
Definition is_chat_event (ev : Event) : bool :=
  match ev with
  | LlmCall _ _ | StMarkdown _ => true
  | _ => false
  end.

(** The run added events to the trace, and all of them pass [p]. *)
Definition adds (p : Event -> bool) (w w' : World) : Prop :=
  exists events, trace w' = (trace w ++ events)%list /\ forallb p events = true.

Definition is_st_warning (ev : Event) : bool :=
  match ev with StWarning _ => true | _ => false end.

(** A call of the language model names one of [names]. *)
Definition llm_model_in (names : list string) (ev : Event) : bool :=
  match ev with
  | LlmCall model _ => existsb (String.eqb model) names
  | _ => true
  end.

(** The question of the scenarios. *)
Definition QUESTION : string := "What color is the sky?".

(* ===================================================================== *)
(** * Part II: facts *)
(* ===================================================================== *)

(** ** Lists without repeats *)

Section UniqueFacts.

Variable A : Type.
Variable A_eq_dec : forall x y : A, {x = y} + {x <> y}.

Lemma in_unique_from x : forall l seen,
  In x (unique_from A_eq_dec seen l) <-> In x l /\ ~ In x seen.
Proof.
  induction l as [|y ys IH]; intros seen; simpl.
  - tauto.
  - destruct (in_dec A_eq_dec y seen) as [Hy|Hy].
    + rewrite IH. split.
      * intros [H1 H2]. tauto.
      * intros [[->|H1] H2]; tauto.
    + simpl. rewrite IH. simpl.
      destruct (A_eq_dec y x) as [->|Hne]; tauto.
Qed.

Lemma in_unique x l : In x (unique A_eq_dec l) <-> In x l.
Proof. unfold unique. rewrite in_unique_from. simpl. tauto. Qed.

Lemma unique_from_NoDup : forall l seen, NoDup (unique_from A_eq_dec seen l).
Proof.
  induction l as [|y ys IH]; intros seen; simpl; [constructor|].
  destruct (in_dec A_eq_dec y seen); [apply IH|].
  constructor; [|apply IH].
  rewrite in_unique_from. simpl. tauto.
Qed.

End UniqueFacts.

Lemma in_firstn_in (A : Type) (x : A) n l : In x (firstn n l) -> In x l.
Proof.
  intros H. rewrite <- (firstn_skipn n l). apply in_or_app. now left.
Qed.

(** ** The chunker *)

Module ChunkerFacts.

Import Chunker.
Local Open Scope nat_scope.

Section SlidingWindowFacts.

Variable A : Type.
Variables (m o : nat).
Hypothesis overlap_lt : o < m.

Lemma stride_pos : 0 < stride m o.
Proof. unfold stride. lia. Qed.

Lemma stride_overlap : stride m o + o = m.
Proof. unfold stride. lia. Qed.

(** With fuel left, the loop obeys its recursion equation. *)
Lemma windows_last src fuel start len :
  len - start <= m -> 0 < fuel ->
  windows m o src fuel start len = [mkChunk start (len - start) src].
Proof.
  intros Hfit Hf. destruct fuel as [|f]; [lia|]. simpl.
  apply Nat.leb_le in Hfit. now rewrite Hfit.
Qed.

Lemma windows_more src fuel start len :
  m < len - start ->
  windows m o src (S fuel) start len =
  mkChunk start m src :: windows m o src fuel (start + stride m o) len.
Proof.
  intros Hbig. simpl.
  destruct (len - start <=? m) eqn:E; [apply Nat.leb_le in E; lia | reflexivity].
Qed.

(** The fuel [split_with] gives is never used up: more fuel changes
    nothing. *)
Lemma windows_fuel src len : forall fuel fuel' start,
  len - start < fuel -> len - start < fuel' ->
  windows m o src fuel start len = windows m o src fuel' start len.
Proof.
  induction fuel as [|f IH]; intros fuel' start H H'; [lia|].
  destruct fuel' as [|f']; [lia|].
  destruct (Nat.le_gt_cases (len - start) m) as [Hfit|Hbig].
  - rewrite !windows_last by lia. reflexivity.
  - rewrite !windows_more by assumption. f_equal.
    pose proof stride_pos. apply IH; lia.
Qed.

(** Every chunk carries the source of its text block. *)
Lemma windows_source src c : forall fuel start len,
  In c (windows m o src fuel start len) -> source c = src.
Proof.
  induction fuel as [|f IH]; intros start len Hin; simpl in Hin; [contradiction|].
  destruct (len - start <=? m).
  - destruct Hin as [<-|[]]. reflexivity.
  - destruct Hin as [<-|Hin]; [reflexivity | eauto].
Qed.

(** No chunk is longer than the window, and every chunk lies inside the
    text. *)
Lemma windows_bounds src c : forall fuel start len,
  start <= len ->
  In c (windows m o src fuel start len) ->
  length c <= m /\ start <= start_offset c /\ start_offset c + length c <= len.
Proof.
  induction fuel as [|f IH]; intros start len Hs Hin; simpl in Hin; [contradiction|].
  destruct (len - start <=? m) eqn:E.
  - apply Nat.leb_le in E. destruct Hin as [<-|[]]. simpl. lia.
  - apply Nat.leb_gt in E. destruct Hin as [<-|Hin]; simpl; [lia|].
    pose proof stride_overlap.
    apply IH in Hin; [lia | lia].
Qed.

(** What the chunks from [start] on give to [reassemble] when they are not
    the first: the text from [o] units after [start]. *)
Lemma windows_tail_text src (t : list A) : forall fuel start,
  List.length t - start < fuel ->
  flat_map (fun d => skipn o (chunk_text t d))
           (windows m o src fuel start (List.length t))
  = skipn (start + o) t.
Proof.
  induction fuel as [|f IH]; intros start Hf; [lia|].
  destruct (Nat.le_gt_cases (List.length t - start) m) as [Hfit|Hbig].
  - rewrite windows_last by lia. simpl. rewrite app_nil_r.
    unfold chunk_text; simpl.
    rewrite firstn_all2 by (rewrite length_skipn; lia).
    rewrite skipn_skipn. f_equal. lia.
  - rewrite windows_more by assumption. simpl.
    pose proof stride_pos. pose proof stride_overlap.
    rewrite IH by lia.
    unfold chunk_text; simpl.
    rewrite <- (firstn_skipn (stride m o) (skipn (start + o) t)) at 1.
    f_equal.
    + rewrite skipn_firstn_comm, skipn_skipn.
      replace (m - o) with (stride m o) by reflexivity.
      do 2 f_equal. lia.
    + rewrite skipn_skipn. f_equal. lia.
Qed.

Lemma reassemble_windows src (t : list A) fuel :
  List.length t < fuel ->
  reassemble o t (windows m o src fuel 0 (List.length t)) = t.
Proof.
  intros Hf. destruct fuel as [|f]; [lia|].
  destruct (Nat.le_gt_cases (List.length t - 0) m) as [Hfit|Hbig].
  - rewrite windows_last by lia. unfold reassemble, chunk_text; simpl.
    rewrite app_nil_r, Nat.sub_0_r. apply firstn_all.
  - rewrite windows_more by assumption. unfold reassemble.
    pose proof stride_pos. pose proof stride_overlap.
    rewrite windows_tail_text by lia.
    unfold chunk_text; simpl.
    replace (stride m o + o) with m by lia.
    apply firstn_skipn.
Qed.

(** Two consecutive chunks: the earlier one is a full window, the later
    one starts [o] units before the earlier one ends and is longer than
    [o], so the two spans share exactly [o] units. *)
Lemma windows_consecutive src c1 c2 : forall fuel start len i,
  nth_error (windows m o src fuel start len) i = Some c1 ->
  nth_error (windows m o src fuel start len) (S i) = Some c2 ->
  length c1 = m /\
  start_offset c2 + o = start_offset c1 + length c1 /\
  o < length c2 /\
  start_offset c2 + length c2 <= len.
Proof.
  induction fuel as [|f IH]; intros start len i H1 H2;
    [destruct i; discriminate|].
  destruct (Nat.le_gt_cases (len - start) m) as [Hfit|Hbig].
  - rewrite windows_last in H2 by lia. destruct i; discriminate.
  - rewrite windows_more in H1, H2 by assumption.
    destruct i as [|i].
    + simpl in H1, H2. injection H1 as <-. simpl.
      pose proof stride_overlap.
      destruct f as [|f']; [discriminate|].
      simpl in H2.
      destruct (len - (start + stride m o) <=? m) eqn:E;
        injection H2 as <-; simpl.
      * lia.
      * apply Nat.leb_gt in E. lia.
    + simpl in H1, H2. eapply IH; eassumption.
Qed.

(** The shared units are the same text on both sides. *)
Lemma shared_text (t : list A) c1 c2 :
  length c1 = m ->
  start_offset c2 + o = start_offset c1 + length c1 ->
  o < length c2 ->
  skipn (length c1 - o) (chunk_text t c1) = firstn o (chunk_text t c2).
Proof.
  intros Hm Hst Hlen. unfold chunk_text.
  rewrite firstn_firstn, Nat.min_l by lia.
  rewrite skipn_firstn_comm, skipn_skipn.
  replace (length c1 - (length c1 - o)) with o by lia.
  replace (length c1 - o + start_offset c1) with (start_offset c2) by lia.
  reflexivity.
Qed.

End SlidingWindowFacts.

Lemma overlap_lt_max_size : overlap < max_size.
Proof. apply Nat.ltb_lt. vm_compute. reflexivity. Qed.

(** [split] returns for every text block. *)
Lemma split_total (A : Type) (tb : TextBlock A) :
  split tb = inr (windows max_size overlap (source_name tb)
                          (S (List.length (text tb))) 0 (List.length (text tb))).
Proof.
  unfold split, split_with.
  destruct (max_size <=? overlap) eqn:E; [|reflexivity].
  apply Nat.leb_le in E. pose proof overlap_lt_max_size. lia.
Qed.

(** C3 (coverage).  [split] returns a chunk sequence for every text block,
    and gluing the chunks' spans together, each chunk after the first
    without the 100 units it shares with the chunk before it, gives back
    the text exactly. *)
Theorem split_coverage (A : Type) (tb : TextBlock A) :
  exists cs, split tb = inr cs /\ reassemble overlap (text tb) cs = text tb.
Proof.
  eexists. split; [apply split_total|].
  apply reassemble_windows; [apply overlap_lt_max_size | lia].
Qed.

(** C4 (overlap).  For two consecutive chunks of [split], the span of the
    earlier one and the span of the later one share exactly 100 units, and
    these are the last 100 units of the earlier chunk's text and the first
    100 of the later one's.  This holds for every consecutive pair, the
    pair that ends in the last chunk included. *)
Theorem split_overlap (A : Type) (tb : TextBlock A) cs i c1 c2 :
  split tb = inr cs ->
  nth_error cs i = Some c1 ->
  nth_error cs (S i) = Some c2 ->
  shared_units c1 c2 = overlap /\
  skipn (length c1 - overlap) (chunk_text (text tb) c1)
    = firstn overlap (chunk_text (text tb) c2) /\
  List.length (firstn overlap (chunk_text (text tb) c2)) = overlap.
Proof.
  intros Hs H1 H2.
  assert (Hcs : cs = windows max_size overlap (source_name tb)
                       (S (List.length (text tb))) 0 (List.length (text tb)))
    by (rewrite split_total in Hs; congruence).
  subst cs.
  destruct (windows_consecutive overlap_lt_max_size _ _ _ _ _ H1 H2)
    as (Hm & Hst & Hlen & Hend).
  split; [unfold shared_units; lia|]. split.
  - apply shared_text with (m := max_size);
      auto using overlap_lt_max_size.
  - unfold chunk_text. rewrite firstn_firstn, Nat.min_l by lia.
    rewrite length_firstn, length_skipn. lia.
Qed.

(** C10 (short text).  A text shorter than the maximum chunk size, the empty
    text included, gives exactly one chunk, spanning the whole text. *)
Theorem split_short_text (A : Type) (tb : TextBlock A) :
  List.length (text tb) < max_size ->
  split tb = inr [mkChunk 0 (List.length (text tb)) (source_name tb)].
Proof.
  intros Hlen. rewrite split_total. f_equal.
  rewrite windows_last by first [apply overlap_lt_max_size | lia].
  now rewrite Nat.sub_0_r.
Qed.

(** The text of the end-to-end scenario gives three chunks. *)
Example split_sky_text :
  split (mkTextBlock sky_text "sky.pdf")
  = inr [mkChunk 0 7500 "sky.pdf"; mkChunk 7400 7500 "sky.pdf";
         mkChunk 14800 2200 "sky.pdf"].
Proof. vm_compute. reflexivity. Qed.

Lemma split_overlap_witness :
  let tb := mkTextBlock sky_text "sky.pdf" in
  let cs := [mkChunk 0 7500 "sky.pdf"; mkChunk 7400 7500 "sky.pdf";
             mkChunk 14800 2200 "sky.pdf"] in
  let c1 := mkChunk 7400 7500 "sky.pdf" in
  let c2 := mkChunk 14800 2200 "sky.pdf" in
  (split tb = inr cs /\ nth_error cs 1 = Some c1 /\ nth_error cs 2 = Some c2) /\
  shared_units c1 c2 = overlap /\
  skipn (length c1 - overlap) (chunk_text (text tb) c1)
    = firstn overlap (chunk_text (text tb) c2) /\
  List.length (firstn overlap (chunk_text (text tb) c2)) = overlap.
Proof.
  cbv zeta.
  split; [split; [vm_compute; reflexivity | split; reflexivity]|].
  apply (@split_overlap nat (mkTextBlock sky_text "sky.pdf")
           [mkChunk 0 7500 "sky.pdf"; mkChunk 7400 7500 "sky.pdf";
            mkChunk 14800 2200 "sky.pdf"] 1).
  - vm_compute. reflexivity.
  - reflexivity.
  - reflexivity.
Defined.

Lemma split_short_text_witness :
  List.length (text (mkTextBlock (@nil ascii) "empty.pdf")) < max_size /\
  split (mkTextBlock (@nil ascii) "empty.pdf") = inr [mkChunk 0 0 "empty.pdf"].
Proof.
  split.
  - apply Nat.ltb_lt. vm_compute. reflexivity.
  - apply (@split_short_text ascii (mkTextBlock nil "empty.pdf")).
    apply Nat.ltb_lt. vm_compute. reflexivity.
Defined.

End ChunkerFacts.

(** ** The query expander and the retriever *)

Module QueryExpanderFacts.

Import QueryExpander.

Lemma expand_in question output x :
  In x (expand question output) <->
  x = question \/ (well_formed output = true /\ In x (generated_variants output)).
Proof.
  unfold expand. destruct (well_formed output); simpl.
  - rewrite filter_In, negb_true_iff, String.eqb_neq.
    destruct (string_dec x question) as [->|Hne]; [tauto|].
    split; [intros [E|[H _]] | intros [E|[_ H]]]; auto; congruence.
  - split; [intros [E|[]] | intros [E|[E _]]]; auto; discriminate.
Qed.

Example generated_variants_three :
  generated_variants
    (String "a" (String newline (String "b" (String newline (String "c"
      (String newline EmptyString))))))
  = ["a"; "b"; "c"].
Proof. reflexivity. Qed.

Example expand_three_variants :
  expand "q" (String "a" (String newline (String "b" (String newline "c"))))
  = ["q"; "a"; "b"; "c"].
Proof. reflexivity. Qed.

Example expand_malformed :
  expand "What color is the sky?" "only one line" = ["What color is the sky?"]
  /\ expand "What color is the sky?" "" = ["What color is the sky?"].
Proof. split; reflexivity. Qed.

End QueryExpanderFacts.

(** ** Python strings *)

Example python_repr_plain : python_repr "alpha" = "'alpha'".
Proof. reflexivity. Qed.

Example python_repr_line_break :
  python_repr (String "a" (String newline "b"))
  = "'a" ++ String BACKSLASH "nb'".
Proof. reflexivity. Qed.

Example python_repr_apostrophe :
  python_repr "don't" = String DOUBLE_QUOTE ("don't" ++ String DOUBLE_QUOTE "").
Proof. reflexivity. Qed.

Example python_repr_both_quotes :
  python_repr ("it's " ++ String DOUBLE_QUOTE "x")
  = "'it" ++ String BACKSLASH ("'s " ++ String DOUBLE_QUOTE "x'").
Proof. reflexivity. Qed.

Example python_repr_form_feed :
  python_repr (String (ascii_of_nat 12) "") = "'" ++ String BACKSLASH "x0c'".
Proof. reflexivity. Qed.

Example show_documents_one_line :
  show_documents [mkDocument "alpha" "doc1.pdf"]
  = "[Document(metadata={'source': 'doc1.pdf'}, page_content='alpha')]".
Proof. reflexivity. Qed.

Example show_documents_none : show_documents [] = "[]".
Proof. reflexivity. Qed.

Example generate_queries_lines :
  generate_queries "q"
    ("  a" ++ String newline (String newline ("b " ++ String newline "")))
  = ["a"; "b"].
Proof. reflexivity. Qed.

Example generate_queries_nothing :
  generate_queries "q" "" = [] /\ generate_queries "q" (String newline " ") = [].
Proof. split; reflexivity. Qed.

(** ** Ranking *)

Section RankingFacts.

Variable key : Document -> nat.

Lemma insert_by_In x y : forall l, In y (insert_by key x l) <-> y = x \/ In y l.
Proof.
  induction l as [|z zs IH]; simpl.
  - intuition congruence.
  - destruct (key x <=? key z)%nat; simpl; [intuition congruence|].
    rewrite IH. intuition congruence.
Qed.

(** Sorting neither adds nor loses a document. *)
Lemma sort_by_In y : forall l, In y (sort_by key l) <-> In y l.
Proof.
  induction l as [|z zs IH]; simpl; [tauto|].
  rewrite insert_by_In, IH. intuition congruence.
Qed.

End RankingFacts.

(** ** What a run leaves alone *)

Section Respects.

Variable R : World -> World -> Prop.
Hypothesis R_refl : forall w, R w w.
Hypothesis R_trans : forall a b c, R a b -> R b c -> R a c.

Lemma respects_ret (A : Type) (a : A) : respects R (ret a).
Proof. intros w r w' H. injection H as _ <-. apply R_refl. Qed.

Lemma respects_raise (A : Type) (e : Exn) : respects R (@raise A e).
Proof. intros w r w' H. injection H as _ <-. apply R_refl. Qed.

Lemma respects_bind (A B : Type) (c : Run A) (k : A -> Run B) :
  respects R c -> (forall a, respects R (k a)) -> respects R (bind c k).
Proof.
  intros Hc Hk w r w' H. unfold bind in H.
  destruct (c w) as [[a|e] w1] eqn:E.
  - eapply R_trans; [eapply Hc; eassumption | eapply Hk; eassumption].
  - injection H as _ <-. eapply Hc; eassumption.
Qed.

Lemma respects_try_except (A : Type) (body : Run A) (handler : string -> Run A) :
  respects R body -> (forall e, respects R (handler e)) ->
  respects R (try_except body handler).
Proof.
  intros Hb Hh w r w' H. unfold try_except in H.
  destruct (body w) as [[a|[what|]] w1] eqn:E.
  - injection H as _ <-. eapply Hb; eassumption.
  - eapply R_trans; [eapply Hb; eassumption | eapply Hh; eassumption].
  - injection H as _ <-. eapply Hb; eassumption.
Qed.

Lemma respects_try_finally (A : Type) (body : Run A) (cleanup : Run unit) :
  respects R body -> respects R cleanup ->
  respects R (try_finally body cleanup).
Proof.
  intros Hb Hc w r w' H. unfold try_finally in H.
  destruct (body w) as [rb w1] eqn:E.
  destruct (cleanup w1) as [[u|e] w2] eqn:E2; injection H as _ <-;
    (eapply R_trans; [eapply Hb; eassumption | eapply Hc; eassumption]).
Qed.

Lemma respects_attempt (A : Type) (c : Run A) :
  respects R c -> respects R (attempt c).
Proof.
  intros Hc w r w' H. unfold attempt in H.
  destruct (c w) as [rc w1] eqn:E. injection H as _ <-.
  eapply Hc; eassumption.
Qed.

Lemma respects_resume (A : Type) (r : Outcome A) : respects R (resume r).
Proof. destruct r; [apply respects_ret | apply respects_raise]. Qed.

Lemma respects_for_each (A B : Type) (f : A -> Run B) (xs : list A) :
  (forall x, respects R (f x)) -> respects R (for_each f xs).
Proof.
  intros Hf. induction xs as [|x rest IH]; simpl.
  - apply respects_ret.
  - apply respects_bind; [apply Hf|]. intros y.
    apply respects_bind; [apply IH|]. intros ys. apply respects_ret.
Qed.

Lemma respects_get_storage : respects R get_storage.
Proof. intros w r w' H. injection H as _ <-. apply R_refl. Qed.

Lemma respects_get_session : respects R get_session.
Proof. intros w r w' H. injection H as _ <-. apply R_refl. Qed.

Lemma respects_get_temp_dirs : respects R get_temp_dirs.
Proof. intros w r w' H. injection H as _ <-. apply R_refl. Qed.

End Respects.

Lemma respects_weaken (R1 R2 : World -> World -> Prop) (A : Type) (c : Run A) :
  (forall w w', R1 w w' -> R2 w w') -> respects R1 c -> respects R2 c.
Proof. intros Hsub Hc w r w' H. eapply Hsub, Hc, H. Qed.

Lemma same_session_refl w : same_session w w.
Proof. reflexivity. Qed.

Lemma same_session_trans a b c : same_session a b -> same_session b c -> same_session a c.
Proof. unfold same_session. congruence. Qed.

Lemma same_messages_refl w : same_messages w w.
Proof. reflexivity. Qed.

Lemma same_messages_trans a b c :
  same_messages a b -> same_messages b c -> same_messages a c.
Proof. unfold same_messages. congruence. Qed.

Lemma history_grows_refl w : history_grows w w.
Proof. exists []. now rewrite app_nil_r. Qed.

Lemma history_grows_trans a b c :
  history_grows a b -> history_grows b c -> history_grows a c.
Proof.
  intros [n1 H1] [n2 H2]. exists (n1 ++ n2)%list.
  now rewrite H2, H1, app_assoc.
Qed.

Lemma same_session_messages w w' : same_session w w' -> same_messages w w'.
Proof. unfold same_session, same_messages. congruence. Qed.

Lemma same_messages_history w w' : same_messages w w' -> history_grows w w'.
Proof.
  unfold same_messages, history_grows, history. intros ->.
  exists []. now rewrite app_nil_r.
Qed.

Create HintDb frame.

(** Breaks a goal [respects R c] down along the structure of [c]; the
    leaves are closed from the hint database. *)
Ltac frame_with Hrefl Htrans :=
  repeat first
    [ apply (@respects_ret _ Hrefl)
    | apply (@respects_raise _ Hrefl)
    | apply (@respects_resume _ Hrefl)
    | apply (@respects_get_storage _ Hrefl)
    | apply (@respects_get_session _ Hrefl)
    | apply (@respects_get_temp_dirs _ Hrefl)
    | solve [auto with frame]
    | apply (@respects_bind _ Htrans); [ | intros ? ]
    | apply (@respects_try_except _ Htrans); [ | intros ? ]
    | apply (@respects_try_finally _ Htrans)
    | apply (@respects_attempt _)
    | apply (@respects_for_each _ Hrefl Htrans); intros ?
    | match goal with
      | |- respects _ (match ?x with _ => _ end) => destruct x
      end ].

(** *** The session is left alone *)

Lemma emit_same_session ev : respects same_session (emit ev).
Proof. intros w r w' H. injection H as _ <-. reflexivity. Qed.

Lemma set_storage_same_session s : respects same_session (set_storage s).
Proof. intros w r w' H. injection H as _ <-. reflexivity. Qed.

Lemma set_temp_dirs_same_session n : respects same_session (set_temp_dirs n).
Proof. intros w r w' H. injection H as _ <-. reflexivity. Qed.

#[local] Hint Resolve emit_same_session set_storage_same_session
  set_temp_dirs_same_session : frame.

Ltac frame_session := frame_with same_session_refl same_session_trans.

Lemma path_exists_same_session : respects same_session path_exists.
Proof. unfold path_exists. frame_session. Qed.

Lemma rmtree_chroma_db_same_session ok : respects same_session (rmtree_chroma_db ok).
Proof. unfold rmtree_chroma_db. frame_session. Qed.

Lemma get_chroma_client_same_session ok : respects same_session (get_chroma_client ok).
Proof. unfold get_chroma_client. frame_session. Qed.

Lemma list_collections_same_session ok : respects same_session (list_collections ok).
Proof. unfold list_collections. frame_session. Qed.

Lemma delete_collection_same_session ok : respects same_session (delete_collection ok).
Proof. unfold delete_collection. frame_session. Qed.

Lemma chroma_from_documents_same_session outcome chunks :
  respects same_session (chroma_from_documents outcome chunks).
Proof. unfold chroma_from_documents. frame_session. Qed.

#[local] Hint Resolve path_exists_same_session rmtree_chroma_db_same_session
  get_chroma_client_same_session list_collections_same_session
  delete_collection_same_session chroma_from_documents_same_session : frame.

Section ProgramFrame.

Variable split_text : string -> list string.
Variable distance : string -> string -> nat.
Variable queries_of : string -> string -> list string.

Lemma extract_text_from_pdf_same_session pdf :
  respects same_session (extract_text_from_pdf pdf).
Proof. unfold extract_text_from_pdf, log. frame_session. Qed.

Lemma create_vector_db_same_session env file_upload :
  respects same_session (create_vector_db split_text env file_upload).
Proof.
  pose proof extract_text_from_pdf_same_session.
  unfold create_vector_db, mkdtemp, write_upload, rmtree_temp_dir, log, sleep.
  frame_session.
Qed.

Lemma similarity_search_same_session db query :
  respects same_session (similarity_search distance db query).
Proof. unfold similarity_search. frame_session. Qed.

Lemma retriever_invoke_same_session env db query :
  respects same_session (retriever_invoke distance env db query).
Proof.
  pose proof similarity_search_same_session.
  unfold retriever_invoke. frame_session.
Qed.

Lemma process_question_same_session env question db model :
  respects same_session
    (process_question distance queries_of env question db model).
Proof.
  pose proof retriever_invoke_same_session.
  unfold process_question, multi_query_retriever, invoke_llm, log.
  frame_session.
Qed.

Lemma extract_all_pages_as_images_same_session file_upload :
  respects same_session (extract_all_pages_as_images file_upload).
Proof. unfold extract_all_pages_as_images, log. frame_session. Qed.

End ProgramFrame.

#[local] Hint Resolve extract_text_from_pdf_same_session
  create_vector_db_same_session similarity_search_same_session
  process_question_same_session extract_all_pages_as_images_same_session : frame.

(** *** The conversation is left alone, or grows *)

Lemma respects_session_messages (A : Type) (c : Run A) :
  respects same_session c -> respects same_messages c.
Proof. apply respects_weaken, same_session_messages. Qed.

Lemma respects_messages_history (A : Type) (c : Run A) :
  respects same_messages c -> respects history_grows c.
Proof. apply respects_weaken, same_messages_history. Qed.

#[local] Hint Resolve respects_session_messages respects_messages_history : frame.

Ltac session_write :=
  let w := fresh "w" in let r := fresh "r" in
  let w' := fresh "w" in let H := fresh "H" in
  intros w r w' H; cbv in H; injection H as _ <-; reflexivity.

Lemma set_vector_db_same_messages v : respects same_messages (set_vector_db v).
Proof. session_write. Qed.

Lemma set_file_upload_same_messages v : respects same_messages (set_file_upload v).
Proof. session_write. Qed.

Lemma set_pdf_pages_same_messages v : respects same_messages (set_pdf_pages v).
Proof. session_write. Qed.

Lemma pop_pdf_pages_same_messages : respects same_messages pop_pdf_pages.
Proof. session_write. Qed.

Lemma pop_file_upload_same_messages : respects same_messages pop_file_upload.
Proof. session_write. Qed.

Lemma pop_vector_db_same_messages : respects same_messages pop_vector_db.
Proof. session_write. Qed.

#[local] Hint Resolve set_vector_db_same_messages set_file_upload_same_messages
  set_pdf_pages_same_messages pop_pdf_pages_same_messages
  pop_file_upload_same_messages pop_vector_db_same_messages : frame.

Ltac frame_messages := frame_with same_messages_refl same_messages_trans.
Ltac frame_history := frame_with history_grows_refl history_grows_trans.

Lemma get_vector_db_same_messages : respects same_messages get_vector_db.
Proof. unfold get_vector_db. frame_messages. Qed.

Lemma init_vector_db_same_messages : respects same_messages init_vector_db.
Proof. unfold init_vector_db. frame_messages. Qed.

Lemma delete_vector_db_same_messages env :
  respects same_messages (delete_vector_db env).
Proof. unfold delete_vector_db, log, sleep. frame_messages. Qed.

Lemma render_messages_same_session : respects same_session render_messages.
Proof. unfold render_messages. frame_session. Qed.

(** Appending a turn keeps the turns before it. *)
Lemma append_message_history_grows m : respects history_grows (append_message m).
Proof.
  intros w r w' H. destruct w as [[ms vdb fu pp] st td tr].
  destruct ms as [ms|]; cbv -[List.app] in H; injection H as _ <-.
  - exists [m]. reflexivity.
  - exists []. reflexivity.
Qed.

(** The first run of a session starts the conversation empty; later runs
    find it as it was. *)
Lemma init_messages_history_grows : respects history_grows init_messages.
Proof.
  intros w r w' H. destruct w as [[ms vdb fu pp] st td tr].
  destruct ms as [ms|]; cbv in H; injection H as _ <-;
    exists []; unfold history; simpl; now rewrite ?app_nil_r.
Qed.

#[local] Hint Resolve get_vector_db_same_messages init_vector_db_same_messages
  delete_vector_db_same_messages render_messages_same_session
  append_message_history_grows init_messages_history_grows : frame.

Section Conversation.

Variable split_text : string -> list string.
Variable distance : string -> string -> nat.
Variable queries_of : string -> string -> list string.

Lemma main_history_grows env inp :
  respects history_grows (main split_text distance queries_of env inp).
Proof. unfold main, log. frame_history. Qed.

(** C8 (conversation history), as the program has it.  Every run of the
    script, whatever the widgets hold and however the calls to the
    outside end, keeps the turns the conversation had and at most appends
    to them; and deleting the index leaves the conversation exactly as it
    was: no operation clears it. *)
Theorem history_append_only env inp w :
  (exists new,
      history (snd (main split_text distance queries_of env inp w))
      = (history w ++ new)%list) /\
  history (snd (reset env w)) = history w.
Proof.
  split.
  - destruct (main split_text distance queries_of env inp w) as [r w'] eqn:Hrun.
    eapply main_history_grows; eassumption.
  - destruct (reset env w) as [r w'] eqn:Hdel. unfold history. simpl.
    apply delete_vector_db_same_messages in Hdel.
    unfold same_messages in Hdel. now rewrite Hdel.
Qed.

End Conversation.


(** ** Deleting the index *)

(** Evaluates a run whose world and outcomes are variables, splitting on
    an outcome only when the run asks for it. *)
Ltac split_on_outcomes :=
  repeat (match goal with
          | |- context [match ?b with true => _ | false => _ end] =>
              is_var b; destruct b
          end; cbv -[List.app]).

Ltac reset_cases env w :=
  destruct w as [[?ms ?vdb ?fu ?pp] [|[?docs|]] ?td ?tr];
  destruct env as [? ? ? ? ? ? ? ? ? ? ? ? ?];
  cbv -[List.app]; split_on_outcomes.

Lemma reset_always_reruns env w : fst (reset env w) = Raised RerunException.
Proof. reset_cases env w; reflexivity. Qed.

Lemma reset_reports_success env w : reported_success w (snd (reset env w)).
Proof.
  unfold reported_success, added.
  reset_cases env w; rewrite <- ?app_assoc; simpl;
    (eexists; split; [reflexivity | split; [simpl; tauto | reflexivity]]).
Qed.

Lemma reset_status env w : status (snd (reset env w)) = Empty.
Proof. reset_cases env w; reflexivity. Qed.

Lemma reset_absent env w :
  chroma_db w = NoDirectory ->
  chroma_db (snd (reset env w)) = NoDirectory /\
  added w (snd (reset env w)) (Log INFO "Deleting vector DB" :: SUCCESS_TAIL).
Proof.
  intros Hs. destruct w as [[ms vdb fu pp] st td tr]. simpl in Hs. subst st.
  split; [reflexivity|].
  unfold added. cbv -[List.app]. now rewrite <- !app_assoc.
Qed.

Lemma reset_session env w :
  session (snd (reset env w)) = mkSession (messages (session w)) None None None.
Proof. reset_cases env w; reflexivity. Qed.

(** C9 (idempotent destroy).  Two resets in a row, from any state and
    however the calls to the store and the file system end, both end in
    the rerun of the script after telling the user the collection was
    deleted, show no error, and leave the session without an index.  The
    second one finds the session as the first left it and leaves it so;
    and a reset that finds no directory touches nothing in storage: it
    only reports success. *)
Theorem reset_twice env1 env2 w :
  let w1 := snd (reset env1 w) in
  let w2 := snd (reset env2 w1) in
  fst (reset env1 w) = Raised RerunException /\
  fst (reset env2 w1) = Raised RerunException /\
  reported_success w w1 /\ reported_success w1 w2 /\
  status w1 = Empty /\ status w2 = Empty /\
  session w2 = session w1 /\
  (chroma_db w1 = NoDirectory ->
   chroma_db w2 = NoDirectory /\
   added w1 w2 (Log INFO "Deleting vector DB" :: SUCCESS_TAIL)) /\
  (chroma_db w = NoDirectory ->
   chroma_db w1 = NoDirectory /\
   added w w1 (Log INFO "Deleting vector DB" :: SUCCESS_TAIL)).
Proof.
  cbv zeta. repeat split;
    try apply reset_always_reruns;
    try apply reset_reports_success; try apply reset_status;
    try (apply reset_absent; assumption).
  now rewrite !reset_session.
Qed.

(** Gives the events before a known suffix, once the events are known. *)
Ltac events_before :=
  match goal with
  | |- (_ ++ ?all)%list = (_ ++ ?before ++ ?suffix)%list =>
      let n := eval cbv in (List.length all - List.length suffix) in
      let p := eval cbv in (firstn n all) in
      unify before p
  end.

(** C7 (clean-up failure), as the program has it.  When the first clean-up
    fails, the program logs the error, waits two seconds and tries to
    remove the directory once more, exactly once: before the retry there
    is no pause and at most the one removal that failed, after it none.
    Whether or not the second attempt succeeds, the run goes on: it clears
    the session, tells the user the collection was deleted and shows no
    error.  A failed second attempt is only logged, and the directory
    stays. *)
Theorem cleanup_failure_one_retry env w :
  first_attempt_ok env (chroma_db w) = false ->
  let w' := snd (reset env w) in
  exists before,
    added w w' (before ++ RETRY_BLOCK (retry_rmtree_ok env) ++ SUCCESS_TAIL) /\
    existsb is_sleep before = false /\
    List.length (filter is_rmtree_chroma_db before) <= 1 /\
    existsb is_st_error before = false /\
    fst (reset env w) = Raised RerunException /\
    status w' = Empty /\
    history w' = history w /\
    if retry_rmtree_ok env then chroma_db w' = NoDirectory
    else exists c, chroma_db w' = Directory c.
Proof.
  intros Hfail. cbv zeta. unfold added.
  destruct w as [[ms vdb fu pp] [|[docs|]] td tr];
    destruct env as [? ? ? ? ? ? client_ok list_ok coll_ok rm_ok retry_ok ? ?];
    simpl in Hfail; try discriminate;
    destruct client_ok, list_ok, coll_ok, rm_ok; try discriminate;
    destruct retry_ok;
    cbv -[List.app]; rewrite <- ?app_assoc; simpl;
    (eexists; split; [events_before; reflexivity|]);
    repeat split; eauto; cbv; lia.
Qed.

(** ** Building the index *)

Ltac split_on_outcomes_in H :=
  repeat (match type of H with
          | context [match ?b with true => _ | false => _ end] =>
              is_var b; destruct b
          end; cbv -[List.app List.map List.firstn fold_left] in H).

Section Build.

Variable split_text : string -> list string.
Variable distance : string -> string -> nat.
Variable queries_of : string -> string -> list string.

Lemma chunks_of_source document :
  Forall (has_source (name document)) (chunks_of split_text document).
Proof.
  unfold chunks_of, split_documents. destruct (pages document); [|constructor].
  apply Forall_forall. intros d Hd. apply in_map_iff in Hd.
  destruct Hd as (c & <- & _). reflexivity.
Qed.

(** A build that returns has put the document's chunks behind whatever
    the clean-up left. *)
Lemma create_vector_db_returns env document w db w' :
  create_vector_db split_text env document w = (Returned db, w') ->
  build_ok env document = true /\
  db = mkChroma COLLECTION CHROMA_DIR /\
  chroma_db w' =
    Directory (Some ((if storage_cleared env (chroma_db w) then []
                      else stored_documents (chroma_db w))
                     ++ chunks_of split_text document)%list).
Proof.
  intros H.
  destruct w as [ss st td tr].
  destruct env as [rm_old client mk wr fd rm_tmp ? ? ? ? ? ? ?].
  destruct document as [nm ps].
  unfold build_ok, storage_cleared, chunks_of, text_of, split_documents; simpl.
  destruct st as [|[docs|]], ps as [ps|], fd as [|];
    cbv -[List.app List.map List.firstn fold_left] in H;
    split_on_outcomes_in H; try discriminate;
    injection H as <- <-; simpl; auto.
Qed.

(** A build in which a step fails raises, and adds nothing to what is
    stored: the documents in storage are those the clean-up left. *)
Lemma create_vector_db_raises env document w :
  build_ok env document = false ->
  exists what w',
    create_vector_db split_text env document w = (Raised (Exception what), w') /\
    stored_documents (chroma_db w') =
      (if storage_cleared env (chroma_db w) then []
       else stored_documents (chroma_db w)).
Proof.
  intros Hfail.
  destruct w as [ss st td tr].
  destruct env as [rm_old client mk wr fd rm_tmp ? ? ? ? ? ? ?].
  destruct document as [nm ps].
  unfold build_ok, storage_cleared, chunks_of, text_of, split_documents in *;
    simpl in *.
  destruct client, mk, wr, ps as [ps|], fd as [|]; try discriminate;
    destruct st as [|[docs|]], rm_old, rm_tmp;
    (do 2 eexists; split;
     [cbv -[List.app List.map List.firstn fold_left]; reflexivity|]);
    reflexivity.
Qed.

Lemma create_vector_db_total env document w :
  build_ok env document = true ->
  exists w',
    create_vector_db split_text env document w
    = (Returned (mkChroma COLLECTION CHROMA_DIR), w').
Proof.
  intros Hok.
  destruct w as [ss st td tr].
  destruct env as [rm_old client mk wr fd rm_tmp ? ? ? ? ? ? ?].
  destruct document as [nm ps].
  unfold build_ok in Hok; simpl in Hok.
  destruct client, mk, wr, ps as [ps|], fd as [|]; try discriminate;
    destruct st as [|[docs|]], rm_old, rm_tmp;
    eexists; cbv -[List.app List.map List.firstn fold_left]; reflexivity.
Qed.

End Build.

(** ** Showing the conversation *)

Lemma for_each_emit (A : Type) (event : A -> Event) : forall xs w,
  for_each (fun x => emit (event x)) xs w
  = (Returned (map (fun _ => tt) xs),
     mkWorld (session w) (chroma_db w) (temp_dirs w)
             (trace w ++ map event xs)).
Proof.
  induction xs as [|x rest IH]; intros w; simpl.
  - unfold ret. rewrite app_nil_r. destruct w; reflexivity.
  - unfold bind at 1. unfold emit at 1. unfold bind. rewrite IH. simpl.
    unfold ret. now rewrite <- app_assoc.
Qed.

(** The loop shows every turn of the conversation, in order, and touches
    nothing. *)
Lemma render_messages_run w ms :
  messages (session w) = Some ms ->
  render_messages w
  = (Returned tt,
     mkWorld (session w) (chroma_db w) (temp_dirs w) (trace w ++ rendered ms)).
Proof.
  intros H. unfold render_messages, bind, get_session. rewrite H.
  rewrite for_each_emit. reflexivity.
Qed.

Lemma rendered_no_llm_call ms : existsb is_llm_call (rendered ms) = false.
Proof. induction ms as [|m ms IH]; [reflexivity | exact IH]. Qed.

Lemma rendered_no_search ms : existsb is_search (rendered ms) = false.
Proof. induction ms as [|m ms IH]; [reflexivity | exact IH]. Qed.

Lemma rendered_no_error ms : existsb is_st_error (rendered ms) = false.
Proof. induction ms as [|m ms IH]; [reflexivity | exact IH]. Qed.

Lemma rendered_no_rmtree ms : existsb is_rmtree_chroma_db (rendered ms) = false.
Proof. induction ms as [|m ms IH]; [reflexivity | exact IH]. Qed.

Lemma rendered_no_warning ms : filter is_st_warning (rendered ms) = [].
Proof. induction ms as [|m ms IH]; [reflexivity | exact IH]. Qed.

Lemma rendered_shown ms : filter is_shown (rendered ms) = rendered ms.
Proof. induction ms as [|m ms IH]; [reflexivity | simpl; now rewrite IH]. Qed.

Section Ingestion.

Variable split_text : string -> list string.
Variable distance : string -> string -> nat.
Variable queries_of : string -> string -> list string.

(** With no index in the session, an upload is a build followed by the
    bookkeeping of [main]. *)
Lemma ingest_when_empty env models document w :
  status w = Empty ->
  ingest split_text distance queries_of env models document w =
  match create_vector_db split_text env document (before_build document w) with
  | (Returned db, w1) => after_build document db w1
  | (Raised e, w1) => (Raised e, w1)
  end.
Proof.
  intros Hst. destruct w as [[ms vdb fu pp] st td tr].
  unfold status in Hst; simpl in Hst.
  destruct document as [nm ps].
  destruct vdb as [[db|]|]; try discriminate; destruct ms as [ms|];
    unfold ingest, main, before_build, history, after_build;
    cbv -[create_vector_db render_messages List.app];
    (destruct (create_vector_db _ _ _ _)
       as [[db|e] [[[ms1|] vdb1 fu1 pp1] st1 td1 tr1]]; [| |reflexivity..]);
    destruct ps as [ps|]; try reflexivity;
    try (erewrite !render_messages_run by reflexivity); reflexivity.
Qed.

(** With an index in the session, an upload builds nothing: the handle
    and the stored collection stay as they are. *)
Lemma ingest_when_ready env models document w :
  status w = Ready ->
  chroma_db (snd (ingest split_text distance queries_of env models document w))
  = chroma_db w /\
  vector_db (session (snd (ingest split_text distance queries_of env models document w)))
  = vector_db (session w).
Proof.
  intros Hst. destruct w as [[ms vdb fu pp] st td tr].
  unfold status in Hst; simpl in Hst.
  destruct document as [nm ps].
  destruct vdb as [[db|]|]; try discriminate;
    destruct ms as [ms|], ps as [ps|];
    unfold ingest, main; cbv -[render_messages List.app];
    try (erewrite !render_messages_run by reflexivity);
    split; reflexivity.
Qed.

Lemma after_build_world document db w1 :
  fst (after_build document db w1) = Returned tt ->
  status (snd (after_build document db w1)) = Ready /\
  vector_db (session (snd (after_build document db w1))) = Some (Some db) /\
  chroma_db (snd (after_build document db w1)) = chroma_db w1.
Proof.
  destruct w1 as [[[ms|] vdb fu pp] st td tr], document as [nm [ps|]];
    unfold after_build; cbv -[render_messages List.app List.map];
    try (erewrite !render_messages_run by reflexivity);
    cbv -[List.app List.map]; intros H; try discriminate; auto.
Qed.

Lemma search_finds_stored query w db docs :
  vector_db (session w) = Some (Some db) ->
  chroma_db w = Directory (Some docs) ->
  exists found,
    fst (search distance query w) = Returned found /\ incl found docs.
Proof.
  intros Hdb Hst. destruct w as [[ms vdb fu pp] st td tr]. simpl in *. subst.
  eexists. split; [reflexivity|].
  intros d Hd. apply in_firstn_in, sort_by_In in Hd. exact Hd.
Qed.

(** C1 (a new document replaces the old index), as the program has it.
    When an upload arrives while the session holds no index, and the old
    directory is absent or its removal succeeds, a build that goes
    through leaves in the collection exactly the chunks of the uploaded
    document; the session is then ready, and every search answers with
    chunks whose source is that document. *)
Theorem ingest_from_cleared_storage env models document w :
  status w = Empty ->
  storage_cleared env (chroma_db w) = true ->
  fst (ingest split_text distance queries_of env models document w) = Returned tt ->
  let w' := snd (ingest split_text distance queries_of env models document w) in
  status w' = Ready /\
  chroma_db w' = Directory (Some (chunks_of split_text document)) /\
  forall query,
    exists found,
      fst (search distance query w') = Returned found /\
      Forall (has_source (name document)) found.
Proof.
  intros Hst Hclear Hok. cbv zeta.
  rewrite ingest_when_empty in * by assumption.
  destruct (create_vector_db split_text env document (before_build document w))
    as [[db|e] w1] eqn:Hc; [|discriminate].
  apply create_vector_db_returns in Hc. destruct Hc as (_ & _ & Hstore).
  simpl in Hstore. rewrite Hclear in Hstore. simpl in Hstore.
  destruct (after_build_world document db w1 Hok) as (Hready & Hdb & Hsame).
  rewrite Hsame, Hstore. repeat split; [assumption|].
  intros query.
  destruct (@search_finds_stored query _ db (chunks_of split_text document) Hdb)
    as (found & Hfound & Hincl); [congruence|].
  exists found. split; [assumption|].
  apply Forall_forall. intros d Hd.
  pose proof (chunks_of_source split_text document) as Hsrc.
  rewrite Forall_forall in Hsrc. auto.
Qed.

(** C2 (a failed build).  When a step of the build fails, whichever it
    is, the exception leaves [create_vector_db] and [main]: the build is
    aborted, and the session still holds no index, so the state is
    [Empty], never [Ready].  No chunk of the document reaches storage: the
    stored documents are those the clean-up left, none at all when the old
    directory was absent or removed. *)
Theorem failed_build_leaves_empty_state env models document w :
  status w = Empty ->
  build_ok env document = false ->
  let r := ingest split_text distance queries_of env models document w in
  (exists what, fst r = Raised (Exception what)) /\
  status (snd r) = Empty /\
  vector_db (session (snd r)) = Some None /\
  stored_documents (chroma_db (snd r)) =
    (if storage_cleared env (chroma_db w) then []
     else stored_documents (chroma_db w)).
Proof.
  intros Hst Hfail. cbv zeta.
  rewrite ingest_when_empty by assumption.
  destruct (create_vector_db_raises split_text env document
              (before_build document w) Hfail)
    as (what & w1 & Hc & Hstored).
  rewrite Hc. simpl. split; [eauto|].
  apply create_vector_db_same_session in Hc.
  unfold same_session in Hc. unfold status. rewrite Hc.
  repeat split; assumption.
Qed.

(** C6 (asking before a build).  On a session that holds no index, a
    question is answered with the warning that a PDF must be uploaded
    first; the check comes before the retriever is built, so the language
    model is not called and the store is not searched, no answer is added
    to the conversation, and the session stays [Empty].  What the user is
    shown is the conversation so far, the question, and the warning. *)
Theorem ask_before_build env models question w :
  status w = Empty ->
  let r := ask split_text distance queries_of env models None question w in
  fst r = Returned tt /\
  history (snd r) = (history w ++ [mkMessage "user" question])%list /\
  status (snd r) = Empty /\
  chroma_db (snd r) = chroma_db w /\
  exists events,
    added w (snd r) events /\
    existsb is_llm_call events = false /\
    existsb is_search events = false /\
    filter is_shown events
    = (rendered (history w)
         ++ [StMarkdown question; StWarning NOT_READY_WARNING])%list.
Proof.
  intros Hst. cbv zeta.
  destruct w as [[ms vdb fu pp] st td tr].
  unfold status in Hst; simpl in Hst.
  destruct vdb as [[db|]|]; try discriminate; destruct ms as [ms|];
    unfold ask, main, added, history, status;
    cbv -[render_messages process_question List.app rendered existsb filter];
    erewrite !render_messages_run by reflexivity;
    cbv -[List.app rendered existsb filter];
    rewrite <- ?app_assoc;
    (repeat split; try reflexivity);
    eexists; (split; [reflexivity|]);
    rewrite ?existsb_app, ?filter_app, ?rendered_no_llm_call,
      ?rendered_no_search, ?rendered_shown;
    repeat split; reflexivity.
Qed.

End Ingestion.


(** ** Runs on concrete documents *)

Module ScenarioFacts.

Import Scenario.

Example indexed_is_ready :
  status indexed = Ready /\
  chroma_db indexed = Directory (Some [mkDocument "alpha" "doc1.pdf"]).
Proof. vm_compute. split; reflexivity. Qed.

(** The end-to-end scenario of the specification: the document gives three
    chunks, and the question is answered. *)
Example sky_pdf_chunks :
  map (fun d => String.length (page_content d)) (chunks_of sliding_split_text sky_pdf)
  = [7500; 7500; 2200]%nat.
Proof. vm_compute. reflexivity. Qed.

Example sky_question_answered :
  let w := snd (run_ingest all_ok sky_pdf fresh) in
  history (snd (run_ask all_ok (Some sky_pdf) "What color is the sky?" w))
  = [mkMessage "user" "What color is the sky?";
     mkMessage "assistant" "The sky is blue."].
Proof. vm_compute. reflexivity. Qed.

(** C1, counterexample.  [doc1] is uploaded and indexed; then [doc2] is
    uploaded in the same session.  The run succeeds, but nothing is removed
    and nothing is built: the collection is the one of [doc1], and a search
    answers with the chunk of [doc1]. *)
Lemma second_upload_keeps_first_index :
  let r1 := run_ingest all_ok doc1 fresh in
  let r2 := run_ingest all_ok doc2 (snd r1) in
  fst r1 = Returned tt /\
  status (snd r1) = Ready /\
  fst r2 = Returned tt /\
  chroma_db (snd r2) = Directory (Some [mkDocument "alpha" "doc1.pdf"]) /\
  added (snd r1) (snd r2)
    [Log INFO "Extracting all pages as images";
     Log INFO "PDF pages extracted as images"] /\
  fst (run_search "What is in doc2?" (snd r2))
  = Returned [mkDocument "alpha" "doc1.pdf"].
Proof. vm_compute. repeat split; reflexivity. Qed.

(** The other way old chunks stay: a new session finds the directory of an
    earlier one and cannot remove it; the build goes on and adds to the old
    collection. *)
Example stale_chunks_after_failed_removal :
  chroma_db (snd (run_ingest old_directory_locked doc2 new_session))
  = Directory (Some [mkDocument "alpha" "doc1.pdf"; mkDocument "beta" "doc2.pdf"]).
Proof. vm_compute. reflexivity. Qed.

Lemma ingest_from_cleared_storage_witness :
  let w := new_session in
  let w' := snd (run_ingest all_ok doc2 w) in
  (status w = Empty /\
   storage_cleared all_ok (chroma_db w) = true /\
   fst (run_ingest all_ok doc2 w) = Returned tt) /\
  status w' = Ready /\
  chroma_db w' = Directory (Some (chunks_of sliding_split_text doc2)) /\
  forall query,
    exists found,
      fst (run_search query w') = Returned found /\
      Forall (has_source (name doc2)) found.
Proof.
  cbv zeta. split; [repeat split; reflexivity|].
  apply (@ingest_from_cleared_storage sliding_split_text no_distance
           generate_queries all_ok models doc2 new_session);
    reflexivity.
Defined.

(** What a failed build leaves where there was nothing: the directory the
    client made and an empty collection, with none of the three chunks of
    the document. *)
Example failed_build_leaves_empty_collection :
  let r := run_ingest build_fails sky_pdf fresh in
  chroma_db fresh = NoDirectory /\
  List.length (chunks_of sliding_split_text sky_pdf) = 3 /\
  fst r = Raised (Exception "Chroma.from_documents") /\
  status (snd r) = Empty /\
  chroma_db (snd r) = Directory (Some []).
Proof. vm_compute. repeat split; reflexivity. Qed.

Lemma failed_build_leaves_empty_state_witness :
  let r := run_ingest build_fails sky_pdf fresh in
  (status fresh = Empty /\ build_ok build_fails sky_pdf = false) /\
  (exists what, fst r = Raised (Exception what)) /\
  status (snd r) = Empty /\
  vector_db (session (snd r)) = Some None /\
  stored_documents (chroma_db (snd r)) =
    (if storage_cleared build_fails (chroma_db fresh) then []
     else stored_documents (chroma_db fresh)).
Proof.
  cbv zeta. split; [split; reflexivity|].
  apply (@failed_build_leaves_empty_state sliding_split_text no_distance
           generate_queries build_fails models sky_pdf fresh);
    reflexivity.
Defined.

Lemma ask_before_build_witness :
  let r := run_ask all_ok None "x" (snd (reset all_ok chatted)) in
  status (snd (reset all_ok chatted)) = Empty /\
  fst r = Returned tt /\
  history (snd r)
  = (history (snd (reset all_ok chatted)) ++ [mkMessage "user" "x"])%list /\
  status (snd r) = Empty /\
  chroma_db (snd r) = chroma_db (snd (reset all_ok chatted)) /\
  exists events,
    added (snd (reset all_ok chatted)) (snd r) events /\
    existsb is_llm_call events = false /\
    existsb is_search events = false /\
    filter is_shown events
    = (rendered (history (snd (reset all_ok chatted)))
         ++ [StMarkdown "x"; StWarning NOT_READY_WARNING])%list.
Proof.
  cbv zeta. split; [reflexivity|].
  apply (@ask_before_build sliding_split_text no_distance
           generate_queries all_ok models "x" (snd (reset all_ok chatted))).
  reflexivity.
Defined.

(** C7, counterexample.  The directory cannot be removed, at first or on
    retry.  The failed retry is logged, and the run tells the user the
    collection was deleted; no error is shown, and the directory is still
    there. *)
Lemma failed_retry_is_reported_as_success :
  let r := reset locked indexed in
  fst r = Raised RerunException /\
  added indexed (snd r)
    [Log INFO "Deleting vector DB";
     Log INFO "Deleted myRAG collection";
     Rmtree "chroma_db" false;
     Log ERROR "Error cleaning up chroma_db";
     Sleep 2000;
     Rmtree "chroma_db" false;
     Log ERROR "Failed to remove chroma_db directory after retry";
     StSuccess "Collection and temporary files deleted successfully.";
     Log INFO "Vector DB and related session state cleared";
     Sleep 1000] /\
  existsb is_st_error (trace (snd r)) = false /\
  chroma_db (snd r) = Directory None.
Proof. vm_compute. repeat split; reflexivity. Qed.

Lemma cleanup_failure_one_retry_witness :
  let w' := snd (reset locked indexed) in
  first_attempt_ok locked (chroma_db indexed) = false /\
  exists before,
    added indexed w' (before ++ RETRY_BLOCK (retry_rmtree_ok locked) ++ SUCCESS_TAIL) /\
    existsb is_sleep before = false /\
    List.length (filter is_rmtree_chroma_db before) <= 1 /\
    existsb is_st_error before = false /\
    fst (reset locked indexed) = Raised RerunException /\
    status w' = Empty /\
    history w' = history indexed /\
    if retry_rmtree_ok locked then chroma_db w' = NoDirectory
    else exists c, chroma_db w' = Directory c.
Proof.
  cbv zeta. split; [reflexivity|].
  apply (cleanup_failure_one_retry locked indexed). reflexivity.
Defined.

(** C8, counterexample.  A question was asked and answered; then the index
    is deleted, directory and all.  The two turns of the conversation are
    still there. *)
Lemma history_survives_index_deletion :
  let r := reset all_ok chatted in
  history chatted
  = [mkMessage "user" "What color is the sky?";
     mkMessage "assistant" "The sky is blue."] /\
  fst r = Raised RerunException /\
  chroma_db (snd r) = NoDirectory /\
  status (snd r) = Empty /\
  history (snd r)
  = [mkMessage "user" "What color is the sky?";
     mkMessage "assistant" "The sky is blue."].
Proof. vm_compute. repeat split; reflexivity. Qed.

End ScenarioFacts.

(** ** Further facts: the text of a PDF *)

Lemma append_assoc (a b c : string) : (a ++ b) ++ c = a ++ (b ++ c).
Proof. induction a as [|x a IH]; simpl; [reflexivity | now rewrite IH]. Qed.

Lemma append_nil_r (a : string) : a ++ "" = a.
Proof. induction a as [|x a IH]; simpl; [reflexivity | now rewrite IH]. Qed.

Lemma concat_empty_cons (x : string) (xs : list string) :
  String.concat "" (x :: xs) = x ++ String.concat "" xs.
Proof.
  destruct xs as [|y ys]; simpl; [now rewrite append_nil_r | reflexivity].
Qed.

Lemma fold_left_append (ps : list Page) : forall acc,
  fold_left (fun text p => text ++ page_text p) ps acc
  = acc ++ String.concat "" (map page_text ps).
Proof.
  induction ps as [|p ps IH]; intros acc.
  - simpl. now rewrite append_nil_r.
  - cbn [fold_left map]. rewrite IH, concat_empty_cons. apply append_assoc.
Qed.

Lemma text_of_concat (ps : list Page) :
  text_of ps = String.concat "" (map page_text ps).
Proof. unfold text_of. now rewrite fold_left_append. Qed.

Lemma text_of_app (ps qs : list Page) : text_of (ps ++ qs) = text_of ps ++ text_of qs.
Proof.
  unfold text_of. rewrite fold_left_app, !fold_left_append. reflexivity.
Qed.

Lemma text_of_has_text (ps : list Page) : text_of (filter has_text ps) = text_of ps.
Proof.
  induction ps as [|[[t|]] ps IH]; [reflexivity| |].
  - change (filter has_text (mkPage (Some t) :: ps))
      with ([mkPage (Some t)] ++ filter has_text ps)%list.
    change (mkPage (Some t) :: ps) with ([mkPage (Some t)] ++ ps)%list.
    now rewrite !text_of_app, IH.
  - change (filter has_text (mkPage None :: ps)) with (filter has_text ps).
    change (mkPage None :: ps) with ([mkPage None] ++ ps)%list.
    rewrite text_of_app, IH. reflexivity.
Qed.

(** X1 (text extraction).  For a file that opens, [extract_text_from_pdf]
    returns the texts of the pages joined in page order with nothing in
    between, a page without text giving nothing; so the pages without text
    can be dropped without changing the result, and the text of two runs
    of pages is the text of the first followed by the text of the second.
    A file that does not open makes it raise.  Either way it only logs one
    line. *)
Theorem extract_text_joins_pages (file_name : string) (ps qs : list Page) (w : World) :
  let logged := mkWorld (session w) (chroma_db w) (temp_dirs w)
                        (trace w ++ [Log INFO "Extracting text from PDF"]) in
  extract_text_from_pdf (mkUpload file_name (Some ps)) w
  = (Returned (String.concat "" (map page_text ps)), logged) /\
  extract_text_from_pdf (mkUpload file_name (Some (filter has_text ps))) w
  = extract_text_from_pdf (mkUpload file_name (Some ps)) w /\
  fst (extract_text_from_pdf (mkUpload file_name (Some (ps ++ qs)%list)) w)
  = Returned (String.concat "" (map page_text ps)
              ++ String.concat "" (map page_text qs)) /\
  extract_text_from_pdf (mkUpload file_name None) w
  = (Raised (Exception "pdfplumber: not a PDF"), logged).
Proof.
  cbv zeta.
  assert (Hrun : forall rs,
             extract_text_from_pdf (mkUpload file_name (Some rs)) w
             = (Returned (text_of rs),
                mkWorld (session w) (chroma_db w) (temp_dirs w)
                        (trace w ++ [Log INFO "Extracting text from PDF"])))
    by reflexivity.
  repeat split.
  - now rewrite Hrun, text_of_concat.
  - now rewrite !Hrun, text_of_has_text.
  - now rewrite Hrun, text_of_app, !text_of_concat.
Qed.

(** ** Further facts: building the index *)

(** An upload on a session without an index, all of whose build steps go
    through: the build returns the handle, and [main] records it. *)
Lemma ingest_returns
    (split_text : string -> list string) (distance : string -> string -> nat)
    (queries_of : string -> string -> list string)
    env models document w :
  status w = Empty ->
  build_ok env document = true ->
  exists w1,
    create_vector_db split_text env document (before_build document w)
    = (Returned HANDLE, w1) /\
    ingest split_text distance queries_of env models document w
    = after_build document HANDLE w1 /\
    fst (after_build document HANDLE w1) = Returned tt /\
    chroma_db (snd (after_build document HANDLE w1)) = chroma_db w1 /\
    session (snd (after_build document HANDLE w1))
    = mkSession (Some (history w)) (Some (Some HANDLE)) (Some document)
                (option_map (map to_image) (pages document)).
Proof.
  intros Hst Hok.
  destruct (create_vector_db_total split_text env document
              (before_build document w) Hok) as (w1 & Hc).
  exists w1. split; [exact Hc|].
  rewrite ingest_when_empty by assumption. rewrite Hc.
  apply create_vector_db_same_session in Hc. unfold same_session in Hc.
  destruct document as [nm [ps|]];
    [|unfold build_ok in Hok; simpl in Hok;
      rewrite !andb_false_r in Hok; discriminate].
  destruct w1 as [ss1 st1 td1 tr1]. simpl in Hc. subst ss1.
  unfold after_build. cbv -[render_messages history List.app List.map].
  erewrite render_messages_run by reflexivity.
  repeat split; reflexivity.
Qed.

(** X2 (when an upload succeeds).  On a session without an index, the run
    for an upload returns exactly when the client, the temporary directory,
    the staging of the file, the opening of the PDF and
    [Chroma.from_documents] all go through; a failure to remove the old
    directory or the temporary one does not make it fail.  It then leaves
    in the session the handle on [myRAG] in [chroma_db], the uploaded file
    and one image per page, and the conversation as it was.  Otherwise the
    run raises. *)
Theorem ingest_succeeds_iff_build_ok
    (split_text : string -> list string) (distance : string -> string -> nat)
    (queries_of : string -> string -> list string)
    env models document w :
  status w = Empty ->
  let r := ingest split_text distance queries_of env models document w in
  if build_ok env document
  then fst r = Returned tt /\
       status (snd r) = Ready /\
       session (snd r)
       = mkSession (Some (history w)) (Some (Some HANDLE)) (Some document)
                   (option_map (map to_image) (pages document))
  else exists what, fst r = Raised (Exception what).
Proof.
  intros Hst. cbv zeta.
  destruct (build_ok env document) eqn:Hok.
  - destruct (ingest_returns split_text distance queries_of env models
                document w Hst Hok) as (w1 & _ & -> & Hret & _ & Hss).
    unfold status. rewrite Hss. auto.
  - rewrite ingest_when_empty by assumption.
    destruct (create_vector_db_raises split_text env document
                (before_build document w) Hok) as (what & w1 & Hc & _).
    rewrite Hc. simpl. eauto.
Qed.

(** X3 (what a build touches besides storage).  [create_vector_db] never
    writes the session.  It leaves a temporary directory behind exactly
    when it made one and could not remove it; in every other case,
    whether the build returned or raised, no temporary directory is
    left. *)
Theorem create_vector_db_temp_dir
    (split_text : string -> list string) env document w :
  let w' := snd (create_vector_db split_text env document w) in
  session w' = session w /\
  temp_dirs w' =
    if new_client_ok env && mkdtemp_ok env && negb (temp_rmtree_ok env)
    then S (temp_dirs w) else temp_dirs w.
Proof.
  cbv zeta.
  destruct w as [ss st td tr].
  destruct env as [rm_old client mk wr fd rm_tmp ? ? ? ? ? ? ?].
  destruct document as [nm ps].
  destruct st as [|[docs|]], ps as [ps|], fd as [|];
    cbv -[List.app List.map List.firstn fold_left];
    split_on_outcomes; split; reflexivity.
Qed.

(** X4 (the old directory is dealt with first, and once).  After its
    first log line, [create_vector_db] tries to remove [chroma_db] when
    the directory exists, once, and pauses half a second when the removal
    went through; when there is no directory it tries nothing.  Nothing
    that follows removes the directory or pauses. *)
Theorem create_vector_db_cleanup_first
    (split_text : string -> list string) env document w :
  exists rest,
    added w (snd (create_vector_db split_text env document w))
      ((Log INFO "Creating vector DB from file upload"
          :: CLEANUP_EVENTS env (chroma_db w)) ++ rest) /\
    existsb is_rmtree_chroma_db rest = false /\
    existsb is_sleep rest = false.
Proof.
  unfold added.
  destruct w as [ss st td tr].
  destruct env as [rm_old client mk wr fd rm_tmp ? ? ? ? ? ? ?].
  destruct document as [nm ps].
  destruct st as [|[docs|]], ps as [ps|], fd as [|], rm_old;
    cbv -[List.app List.map List.firstn fold_left];
    split_on_outcomes; rewrite <- ?app_assoc; simpl;
    (eexists; split; [reflexivity | split; reflexivity]).
Qed.

(** X5 (an old collection that could not be removed).  When an upload
    arrives on a session without an index, the directory holds a
    collection, its removal fails and the build goes through, the run
    succeeds and the new chunks are added behind the old ones: every
    chunk of the old collection is still stored. *)
Theorem ingest_over_old_collection
    (split_text : string -> list string) (distance : string -> string -> nat)
    (queries_of : string -> string -> list string)
    env models document w docs :
  status w = Empty ->
  chroma_db w = Directory (Some docs) ->
  old_rmtree_ok env = false ->
  build_ok env document = true ->
  let r := ingest split_text distance queries_of env models document w in
  fst r = Returned tt /\
  status (snd r) = Ready /\
  chroma_db (snd r) = Directory (Some (docs ++ chunks_of split_text document)%list) /\
  forall d, In d docs -> In d (stored_documents (chroma_db (snd r))).
Proof.
  intros Hst Hdocs Hrm Hok. cbv zeta.
  destruct (ingest_returns split_text distance queries_of env models
              document w Hst Hok) as (w1 & Hc & -> & Hret & Hsame & Hss).
  apply create_vector_db_returns in Hc. destruct Hc as (_ & _ & Hstore).
  simpl in Hstore. rewrite Hdocs in Hstore. simpl in Hstore.
  rewrite Hrm in Hstore.
  rewrite Hsame, Hstore. unfold status. rewrite Hss.
  split; [assumption|]. split; [reflexivity|]. split; [reflexivity|].
  simpl. intros d Hd. apply in_or_app. now left.
Qed.

(** X7 (a file that does not open, uploaded over an index).  When the
    session holds an index and the uploaded file cannot be opened, the run
    raises at the rendering of the pages: the session has already taken
    the new file, while the index handle, the page images, the stored
    collection and the conversation stay those of the old file, and
    neither the delete button nor the chat input of that run is looked
    at. *)
Theorem unopenable_upload_when_ready
    (split_text : string -> list string) (distance : string -> string -> nat)
    (queries_of : string -> string -> list string)
    env models choice file_name delete chat w :
  status w = Ready ->
  let bad := mkUpload file_name None in
  let r := main split_text distance queries_of env
             (mkInputs models choice (Some bad) delete chat) w in
  fst r = Raised (Exception "pdfplumber: not a PDF") /\
  added w (snd r) [Log INFO "Extracting all pages as images"] /\
  file_upload (session (snd r)) = Some bad /\
  vector_db (session (snd r)) = vector_db (session w) /\
  pdf_pages (session (snd r)) = pdf_pages (session w) /\
  chroma_db (snd r) = chroma_db w /\
  history (snd r) = history w.
Proof.
  intros Hst. cbv zeta. destruct w as [[ms vdb fu pp] st td tr].
  unfold status in Hst; simpl in Hst.
  destruct vdb as [[db|]|]; try discriminate;
    destruct ms as [ms|]; repeat split.
Qed.

(** ** Further facts: deleting the index *)

(** X8 (a clean delete).  When the first clean-up goes through,
    [delete_vector_db] deletes the collection if there is one, then removes
    the directory, and reports; it logs no error, does not wait for a
    retry, and leaves no directory.  When there was no directory it
    removes nothing.  The session is cleared of the page images, the
    uploaded file and the index handle, and keeps the conversation. *)
Theorem clean_delete env w :
  first_attempt_ok env (chroma_db w) = true ->
  let w' := snd (reset env w) in
  added w w'
    (Log INFO "Deleting vector DB" :: DELETE_EVENTS (chroma_db w) ++ SUCCESS_TAIL) /\
  chroma_db w' = NoDirectory /\
  temp_dirs w' = temp_dirs w /\
  session w' = mkSession (messages (session w)) None None None.
Proof.
  intros Hok. cbv zeta. unfold added.
  destruct w as [[ms vdb fu pp] [|[docs|]] td tr];
    destruct env as [? ? ? ? ? ? client_ok list_ok coll_ok rm_ok retry_ok ? ?];
    simpl in Hok;
    repeat match type of Hok with
           | context [?b && _] => is_var b; destruct b; simpl in Hok
           | ?b = true => is_var b; destruct b
           end; try discriminate;
    cbv -[List.app]; rewrite <- ?app_assoc; repeat split.
Qed.

(** ** Further facts: answering a question *)

Section QuestionFacts.

Variable distance : string -> string -> nat.
Variable queries_of : string -> string -> list string.

Lemma searches_no_llm_call env s : forall queries,
  filter is_llm_call (searches env s queries) = [].
Proof.
  induction queries as [|q qs IH]; [reflexivity|]. simpl.
  destruct (embed_query_ok env q); [|reflexivity].
  destruct s as [|[docs|]]; auto.
Qed.

Lemma searches_are_searches env s : forall queries,
  filter is_search (searches env s queries) = searches env s queries.
Proof.
  induction queries as [|q qs IH]; [reflexivity|]. simpl. f_equal.
  destruct (embed_query_ok env q); [|reflexivity].
  destruct s as [|[docs|]]; auto.
Qed.

Lemma searches_question_events env s : forall queries,
  forallb is_question_event (searches env s queries) = true.
Proof.
  induction queries as [|q qs IH]; [reflexivity|]. simpl.
  destruct (embed_query_ok env q); [|reflexivity].
  destruct s as [|[docs|]]; auto.
Qed.

(** The searches for a list of queries, in closed form: they leave the
    world alone but for the trace, and stop at the first that fails. *)
Lemma for_each_retriever_invoke env db : forall queries w,
  for_each (retriever_invoke distance env db) queries w
  = (match found_for distance env (chroma_db w) queries with
     | inr found => Returned found
     | inl what => Raised (Exception what)
     end,
     mkWorld (session w) (chroma_db w) (temp_dirs w)
             (trace w ++ searches env (chroma_db w) queries)).
Proof.
  induction queries as [|q qs IH]; intros [ss st td tr].
  - simpl. unfold ret. now rewrite app_nil_r.
  - cbn [for_each found_for searches session chroma_db temp_dirs trace].
    unfold bind at 1. unfold retriever_invoke at 1.
    unfold bind at 1, emit at 1.
    cbn [session chroma_db temp_dirs trace].
    destruct (embed_query_ok env q); [|reflexivity].
    unfold similarity_search, bind at 1, get_storage.
    cbn [session chroma_db temp_dirs trace].
    destruct st as [|[docs|]]; try reflexivity.
    unfold ret at 1. unfold bind at 1. rewrite IH.
    cbn [session chroma_db temp_dirs trace].
    destruct (found_for distance env (Directory (Some docs)) qs);
      unfold ret; rewrite <- app_assoc; reflexivity.
Qed.

(** [process_question] in closed form: what it returns or raises, and the
    world it leaves. *)
Lemma process_question_run env question db model w :
  exists events,
    process_question distance queries_of env question db model w
    = (match answer_of distance queries_of env (chroma_db w) model question with
       | inl what => Raised (Exception what)
       | inr response => Returned response
       end,
       mkWorld (session w) (chroma_db w) (temp_dirs w) (trace w ++ events)) /\
    filter is_llm_call events
    = model_calls distance queries_of env (chroma_db w) model question /\
    filter is_search events
    = question_searches queries_of env (chroma_db w) model question /\
    forallb is_question_event events = true.
Proof.
  destruct w as [ss st td tr].
  unfold process_question, multi_query_retriever, invoke_llm, answer_of,
    model_calls, question_searches, context_of, log.
  unfold bind at 1. unfold emit at 1. cbn [session chroma_db temp_dirs trace].
  unfold bind at 1. unfold bind at 1. unfold bind at 1. unfold emit at 1.
  cbn [session chroma_db temp_dirs trace].
  destruct (llm env model (QUERY_PROMPT question)) as [output|].
  - unfold ret at 1. unfold bind at 1. rewrite for_each_retriever_invoke.
    cbn [session chroma_db temp_dirs trace].
    destruct (found_for distance env st (queries_of question output)) as [what|found].
    + eexists. split; [rewrite <- !app_assoc; reflexivity|].
      rewrite !filter_app, !forallb_app, searches_no_llm_call,
        searches_are_searches, searches_question_events.
      repeat split.
    + unfold ret at 1. unfold bind at 1. unfold bind at 1. unfold emit at 1.
      cbn [session chroma_db temp_dirs trace].
      destruct (llm env model _) as [response|];
        [unfold ret at 1; unfold bind at 1, emit at 1;
         cbn [session chroma_db temp_dirs trace]; unfold ret|];
        (eexists; split; [rewrite <- !app_assoc; reflexivity|]);
        rewrite !filter_app, !forallb_app, searches_no_llm_call,
          searches_are_searches, searches_question_events;
        simpl; rewrite ?app_nil_r; repeat split.
  - eexists. split; [rewrite <- !app_assoc; reflexivity|]. repeat split.
Qed.

Lemma nearest_incl docs query d : In d (nearest distance docs query) -> In d docs.
Proof. unfold nearest. intros H. now apply in_firstn_in, sort_by_In in H. Qed.

Lemma found_for_grounded env s : forall queries found,
  found_for distance env s queries = inr found ->
  forall d, In d (List.concat found) -> In d (stored_documents s).
Proof.
  induction queries as [|q qs IH]; intros found H d Hd.
  - injection H as <-. destruct Hd.
  - simpl in H. destruct (embed_query_ok env q); [|discriminate].
    destruct s as [|[docs|]]; try discriminate.
    destruct (found_for distance env (Directory (Some docs)) qs) as [what|rest] eqn:E;
      [discriminate|].
    injection H as <-. simpl in Hd. apply in_app_or in Hd.
    destruct Hd as [Hd|Hd]; [eapply nearest_incl, Hd | eapply IH; eauto].
Qed.

(** The context holds stored chunks only. *)
Lemma context_of_grounded env s queries context :
  context_of distance env s queries = inr context ->
  forall d, In d context -> In d (stored_documents s).
Proof.
  unfold context_of.
  destruct (found_for distance env s queries) as [what|found] eqn:E; [discriminate|].
  intros H d Hd. injection H as <-. apply in_unique in Hd.
  eapply found_for_grounded; eauto.
Qed.

(** X9 (a question only reads).  [process_question] changes nothing but
    the trace: the session, the stored collection and the temporary
    directories are as before, whether it returns or raises; and what it
    raises is never the rerun signal, so the [except Exception] of [main]
    catches it. *)
Theorem process_question_only_reads env question db model w :
  let r := process_question distance queries_of env question db model w in
  session (snd r) = session w /\
  chroma_db (snd r) = chroma_db w /\
  temp_dirs (snd r) = temp_dirs w /\
  (exists events, added w (snd r) events) /\
  fst r <> Raised RerunException.
Proof.
  cbv zeta.
  destruct (process_question_run env question db model w) as (events & -> & _).
  simpl. repeat split; [now exists events|].
  destruct (answer_of distance queries_of env (chroma_db w) model question);
    discriminate.
Qed.

(** X10 (the answer is the model's reply to the retrieved context).  When
    [process_question] returns a response, the model answered the
    expansion prompt, and the response is what the model replied to the
    answer template filled with the question and the retrieved context.
    That context consists of chunks of the stored collection. *)
Theorem process_question_answer env question db model w response :
  fst (process_question distance queries_of env question db model w)
  = Returned response ->
  exists output context,
    llm env model (QUERY_PROMPT question) = Some output /\
    context_of distance env (chroma_db w) (queries_of question output)
    = inr context /\
    llm env model (template (show_documents context) question) = Some response /\
    forall d, In d context -> In d (stored_documents (chroma_db w)).
Proof.
  destruct (process_question_run env question db model w) as (events & -> & _).
  simpl. unfold answer_of.
  destruct (llm env model (QUERY_PROMPT question)) as [output|]; [|discriminate].
  destruct (context_of distance env (chroma_db w) (queries_of question output))
    as [what|context] eqn:Hctx; [discriminate|].
  destruct (llm env model (template (show_documents context) question))
    as [reply|] eqn:Hreply; [|discriminate].
  intros H. injection H as <-.
  exists output, context. repeat split; auto.
  exact (context_of_grounded _ _ _ Hctx).
Qed.

(** X11 (the calls of the language model for one question).
    [process_question] calls the model with the expansion prompt first.  It
    calls it a second time, with the answer template, only when the first
    call answered and the retrieval went through, and never more than
    twice; every call names the model it was given. *)
Theorem process_question_model_calls env question db model w :
  exists events,
    added w (snd (process_question distance queries_of env question db model w))
          events /\
    filter is_llm_call events
    = model_calls distance queries_of env (chroma_db w) model question /\
    List.length (filter is_llm_call events) <= 2 /\
    hd_error (filter is_llm_call events) = Some (LlmCall model (QUERY_PROMPT question)) /\
    (llm env model (QUERY_PROMPT question) = None ->
     filter is_llm_call events = [LlmCall model (QUERY_PROMPT question)]).
Proof.
  destruct (process_question_run env question db model w) as (events & -> & Hcalls & _).
  exists events. split; [reflexivity|]. rewrite Hcalls. unfold model_calls.
  split; [reflexivity|].
  destruct (llm env model (QUERY_PROMPT question)) as [output|];
    [destruct (context_of distance env (chroma_db w) (queries_of question output))|];
    simpl; repeat split; auto; discriminate.
Qed.

End QuestionFacts.

(** ** The queries the retriever runs *)


Section RetrieverFacts.

Variable distance : string -> string -> nat.



End RetrieverFacts.

(** ** Further facts: the chat *)

Section ChatFacts.

Variable split_text : string -> list string.
Variable distance : string -> string -> nat.
Variable queries_of : string -> string -> list string.

Lemma question_events_no_error events :
  forallb is_question_event events = true -> existsb is_st_error events = false.
Proof.
  induction events as [|ev evs IH]; [reflexivity|].
  simpl. intros H. apply andb_true_iff in H. destruct H as [Hev Hevs].
  destruct ev; try discriminate; simpl; auto.
Qed.

(** X12 (a question on a ready index).  When the session holds an index
    and Ollama lists at least one model, a run with a question and nothing
    else returns normally, whatever the language model and the store do.
    The user's turn is appended; the assistant's turn is appended after it
    exactly when [process_question] produced an answer, and it holds that
    answer.  A failure is shown as an error and adds no turn.  The index
    handle and the stored collection stay as they were. *)
Theorem ready_question env first_model more_models choice question w :
  status w = Ready ->
  let models := first_model :: more_models in
  let model := nth choice (extract_model_names models) (model_name first_model) in
  let answer := answer_of distance queries_of env (chroma_db w) model question in
  let r := main split_text distance queries_of env
             (mkInputs models choice None false (Some question)) w in
  fst r = Returned tt /\
  status (snd r) = Ready /\
  vector_db (session (snd r)) = vector_db (session w) /\
  chroma_db (snd r) = chroma_db w /\
  history (snd r)
  = (history w ++ mkMessage "user" question
       :: match answer with
          | inr response => [mkMessage "assistant" response]
          | inl _ => []
          end)%list /\
  exists events,
    added w (snd r) events /\
    match answer with
    | inr response => In (StMarkdown response) events /\ existsb is_st_error events = false
    | inl what => In (StError what) events
    end.
Proof.
  intros Hst. cbv zeta. destruct w as [[ms vdb fu pp] st td tr].
  unfold status in Hst; simpl in Hst.
  destruct vdb as [[db|]|]; try discriminate.
  destruct ms as [ms|];
    unfold added, history, status;
    cbv -[render_messages rendered process_question answer_of List.app nth In
          existsb is_st_error];
    erewrite !render_messages_run by reflexivity;
    cbv -[rendered process_question answer_of List.app nth In existsb is_st_error];
    match goal with
    | |- context [process_question ?a ?b ?c ?d ?e ?f ?g] =>
        destruct (process_question_run a b c d e f g)
          as (events & Hrun & _ & _ & Hquiet);
        rewrite Hrun; clear Hrun
    end;
    apply question_events_no_error in Hquiet;
    cbv -[rendered process_question answer_of List.app nth In existsb is_st_error];
    destruct (answer_of _ _ _ _ _ _) as [what|response];
    cbv -[rendered List.app nth In existsb is_st_error];
    rewrite <- ?app_assoc;
    (repeat split; try reflexivity);
    eexists; (split; [reflexivity|]);
    repeat (progress (simpl;
                      rewrite ?in_app_iff, ?existsb_app, ?Hquiet, ?rendered_no_error));
    simpl; auto 10.
Qed.

(** X13 (a question when Ollama lists no model).  When the session holds
    an index and no model is listed, a question ends in the error of the
    unbound model name, shown to the user; the language model is not
    called, only the user's turn is added, and the run returns normally. *)
Theorem ready_question_without_models env choice question w :
  status w = Ready ->
  let r := main split_text distance queries_of env
             (mkInputs [] choice None false (Some question)) w in
  fst r = Returned tt /\
  history (snd r) = (history w ++ [mkMessage "user" question])%list /\
  status (snd r) = Ready /\
  chroma_db (snd r) = chroma_db w /\
  exists events,
    added w (snd r) events /\
    In (StError "NameError: selected_model") events /\
    existsb is_llm_call events = false.
Proof.
  intros Hst. cbv zeta. destruct w as [[ms vdb fu pp] st td tr].
  unfold status in Hst; simpl in Hst.
  destruct vdb as [[db|]|]; try discriminate;
    destruct ms as [ms|];
    unfold added, history, status;
    cbv -[render_messages rendered process_question List.app In existsb is_llm_call];
    erewrite !render_messages_run by reflexivity;
    cbv -[rendered List.app In existsb is_llm_call];
    rewrite <- ?app_assoc; (repeat split; try reflexivity);
    eexists; (split; [reflexivity|]);
    repeat (progress (simpl;
                      rewrite ?in_app_iff, ?existsb_app, ?rendered_no_llm_call));
    simpl; auto 10.
Qed.

End ChatFacts.

(** ** Further facts: what a run adds to the trace *)

Section AddsFacts.

Variable p : Event -> bool.

Lemma adds_refl w : adds p w w.
Proof. exists []. split; [now rewrite app_nil_r | reflexivity]. Qed.

Lemma adds_trans a b c : adds p a b -> adds p b c -> adds p a c.
Proof.
  intros (e1 & H1 & P1) (e2 & H2 & P2). exists (e1 ++ e2)%list. split.
  - now rewrite H2, H1, app_assoc.
  - rewrite forallb_app, P1, P2. reflexivity.
Qed.

Lemma emit_adds ev : p ev = true -> respects (adds p) (emit ev).
Proof.
  intros Hp w r w' H. injection H as _ <-. exists [ev]. simpl.
  now rewrite Hp.
Qed.

Lemma set_storage_adds s : respects (adds p) (set_storage s).
Proof.
  intros w r w' H. injection H as _ <-. exists [].
  split; [simpl; now rewrite app_nil_r | reflexivity].
Qed.

Lemma set_session_adds s : respects (adds p) (set_session s).
Proof.
  intros w r w' H. injection H as _ <-. exists [].
  split; [simpl; now rewrite app_nil_r | reflexivity].
Qed.

Lemma set_temp_dirs_adds n : respects (adds p) (set_temp_dirs n).
Proof.
  intros w r w' H. injection H as _ <-. exists [].
  split; [simpl; now rewrite app_nil_r | reflexivity].
Qed.

Lemma bind_raise_adds (A B : Type) (e : Exn) (k : A -> Run B) :
  respects (adds p) (bind (raise e) k).
Proof. intros w r w' H. injection H as _ <-. apply adds_refl. Qed.

(** A value that is already there is handed on as it is. *)
Lemma respects_bind_ret (R : World -> World -> Prop) (A B : Type)
    (a : A) (k : A -> Run B) :
  respects R (k a) -> respects R (bind (ret a) k).
Proof. intros Hk w r w' H. exact (Hk w r w' H). Qed.

End AddsFacts.

Ltac unfold_program :=
  unfold main, init_messages, init_vector_db, create_vector_db, delete_vector_db,
    process_question, multi_query_retriever, invoke_llm, similarity_search,
    extract_all_pages_as_images, extract_text_from_pdf,
    chroma_from_documents, path_exists, rmtree_chroma_db, get_chroma_client,
    list_collections, delete_collection, mkdtemp, write_upload, rmtree_temp_dir,
    set_messages, set_vector_db, set_file_upload, set_pdf_pages,
    get_vector_db, append_message, pop_pdf_pages, pop_file_upload, pop_vector_db,
    log, sleep.

(** Breaks a goal [respects (adds p) c] down along [c]; [leaf] shows that
    an emitted event passes [p]. *)
Ltac frame_adds leaf :=
  repeat first
    [ apply (@respects_ret _ (@adds_refl _))
    | apply (@respects_raise _ (@adds_refl _))
    | apply (@respects_resume _ (@adds_refl _))
    | apply (@respects_get_storage _ (@adds_refl _))
    | apply (@respects_get_session _ (@adds_refl _))
    | apply (@respects_get_temp_dirs _ (@adds_refl _))
    | apply set_storage_adds
    | apply set_session_adds
    | apply set_temp_dirs_adds
    | apply emit_adds; solve [leaf]
    | match goal with H : _ |- _ => solve [apply H] end
    | match goal with
      | |- respects _ (bind (ret _) _) => apply respects_bind_ret
      | |- respects _ (bind (raise _) _) => apply bind_raise_adds
      end
    | apply (@respects_bind _ (@adds_trans _)); [ | intros ? ]
    | apply (@respects_try_except _ (@adds_trans _)); [ | intros ? ]
    | apply (@respects_try_finally _ (@adds_trans _))
    | apply (@respects_attempt _)
    | apply (@respects_for_each _ (@adds_refl _) (@adds_trans _)); intros ?
    | match goal with
      | |- respects _ (match ?x with _ => _ end) => destruct x
      | |- respects _ (bind (match ?x with _ => _ end) _) => destruct x
      end ].

Section TraceFacts.

Variable split_text : string -> list string.
Variable distance : string -> string -> nat.
Variable queries_of : string -> string -> list string.

(** Neither a build nor a delete calls the language model or writes into
    the chat. *)
Lemma create_vector_db_adds p env document :
  (forall ev, is_chat_event ev = false -> p ev = true) ->
  respects (adds p) (create_vector_db split_text env document).
Proof.
  intros Hp. unfold_program. frame_adds ltac:(apply Hp; reflexivity).
Qed.

Lemma delete_vector_db_adds p env :
  (forall ev, is_chat_event ev = false -> p ev = true) ->
  respects (adds p) (delete_vector_db env).
Proof.
  intros Hp. unfold_program. frame_adds ltac:(apply Hp; reflexivity).
Qed.

(** X14 (no question, no model call).  A run of the script without a chat
    input, whatever is uploaded, whether or not the delete button is
    pressed and however the calls to the outside end, never calls the
    language model. *)
Theorem no_question_no_model_call env models choice in_uploader delete w :
  adds (fun ev => negb (is_llm_call ev)) w
       (snd (main split_text distance queries_of env
               (mkInputs models choice in_uploader delete None) w)).
Proof.
  destruct (main split_text distance queries_of env
              (mkInputs models choice in_uploader delete None) w) as [r w'] eqn:Hrun.
  simpl. revert Hrun. generalize w, r, w'.
  change (respects (adds (fun ev => negb (is_llm_call ev)))
            (main split_text distance queries_of env
               (mkInputs models choice in_uploader delete None))).
  pose proof (@create_vector_db_adds (fun ev => negb (is_llm_call ev)) env) as Hc.
  pose proof (@delete_vector_db_adds (fun ev => negb (is_llm_call ev)) env) as Hd.
  assert (Hp : forall ev, is_chat_event ev = false -> negb (is_llm_call ev) = true)
    by (intros [] H; try reflexivity; discriminate).
  specialize (fun d => Hc d Hp). specialize (Hd Hp).
  unfold main. cbn [uploaded delete_clicked chat_input models_info model_choice].
  unfold init_messages, init_vector_db, extract_all_pages_as_images,
    set_messages, set_vector_db, set_file_upload, set_pdf_pages, get_vector_db, log.
  frame_adds ltac:(reflexivity).
Qed.

Lemma nth_listed (choice : nat) (first : string) (rest : list string) (prompt : string) :
  llm_model_in (first :: rest) (LlmCall (nth choice (first :: rest) first) prompt) = true.
Proof.
  unfold llm_model_in. apply existsb_exists.
  exists (nth choice (first :: rest) first). split; [|apply String.eqb_refl].
  destruct (Nat.lt_ge_cases choice (List.length (first :: rest))) as [Hlt|Hge].
  - now apply nth_In.
  - rewrite nth_overflow by assumption. now left.
Qed.

(** X15 (the model that is called is a listed one).  In every run of the
    script, every call of the language model names one of the models
    Ollama listed, whatever the widgets hold and however the calls to the
    outside end.  With no model listed, no call is made. *)
Theorem model_calls_name_listed_models env inp w :
  adds (llm_model_in (extract_model_names (models_info inp))) w
       (snd (main split_text distance queries_of env inp w)).
Proof.
  destruct (main split_text distance queries_of env inp w) as [r w'] eqn:Hrun.
  simpl. revert Hrun. generalize w, r, w'.
  change (respects (adds (llm_model_in (extract_model_names (models_info inp))))
            (main split_text distance queries_of env inp)).
  destruct inp as [models choice in_uploader delete chat].
  cbn [models_info].
  remember (extract_model_names models) as names eqn:Hnames.
  assert (Hp : forall ev, is_chat_event ev = false -> llm_model_in names ev = true)
    by (intros [] H; try reflexivity; discriminate).
  pose proof (fun d => @create_vector_db_adds (llm_model_in names) env d Hp) as Hc.
  pose proof (@delete_vector_db_adds (llm_model_in names) env Hp) as Hd.
  unfold main. cbn [uploaded delete_clicked chat_input models_info model_choice].
  rewrite <- Hnames. clear Hnames.
  unfold init_messages, init_vector_db, extract_all_pages_as_images,
    process_question, multi_query_retriever, invoke_llm, similarity_search,
    set_messages, set_vector_db, set_file_upload, set_pdf_pages, get_vector_db,
    append_message, log.
  destruct names as [|first rest], chat as [prompt|]; cbv beta iota zeta;
    frame_adds ltac:(first [reflexivity | apply nth_listed]).
Qed.

(** X16 (the delete button ends the run).  In a run with the delete
    button pressed the script never reaches the chat section: the run does
    not return, the conversation is as it was, whatever the chat input
    holds, and neither a model call nor a chat line is produced.  With
    nothing in the uploader the run ends in the rerun and the session keeps
    the conversation only. *)
Theorem delete_button_ends_run env models choice in_uploader chat w :
  let r := main split_text distance queries_of env
             (mkInputs models choice in_uploader true chat) w in
  (exists e, fst r = Raised e) /\
  history (snd r) = history w /\
  adds (fun ev => negb (is_chat_event ev)) w (snd r) /\
  (in_uploader = None ->
   fst r = Raised RerunException /\
   session (snd r) = mkSession (Some (history w)) None None None).
Proof.
  cbv zeta.
  assert (Hp : forall ev, is_chat_event ev = false -> negb (is_chat_event ev) = true)
    by (intros ev ->; reflexivity).
  pose proof (fun d => @create_vector_db_adds (fun ev => negb (is_chat_event ev)) env d Hp)
    as Hc.
  unfold main. cbn [uploaded delete_clicked chat_input models_info model_choice].
  set (upload_part := match in_uploader with Some _ => _ | None => _ end).
  set (chat_part := match chat with Some _ => _ | None => _ end).
  assert (Hmessages : respects same_messages upload_part).
  { subst upload_part. frame_messages. }
  assert (Hadds : respects (adds (fun ev => negb (is_chat_event ev))) upload_part).
  { subst upload_part.
    unfold extract_all_pages_as_images, set_vector_db, set_file_upload,
      set_pdf_pages, get_vector_db, log.
    frame_adds ltac:(reflexivity). }
  assert (Hnone : in_uploader = None -> upload_part = ret tt)
    by (intros ->; reflexivity).
  clearbody upload_part chat_part.
  assert (Hinit : exists w0,
    (init_messages ;; init_vector_db ;; ret tt) w = (Returned tt, w0) /\
    history w0 = history w /\ trace w0 = trace w /\
    messages (session w0) = Some (history w)).
  { destruct w as [[[ms|] [vdb|] fu pp] st td tr];
      eexists; (split; [reflexivity|]); repeat split. }
  destruct Hinit as (w0 & Hrun0 & Hhistory0 & Htrace0 & Hsome0).
  unfold bind in *.
  destruct (init_messages w) as [[[]|e1] w1]; [|discriminate].
  destruct (init_vector_db w1) as [[[]|e2] w2]; [|discriminate].
  injection Hrun0 as ->.
  destruct (upload_part w0) as [[[]|e3] w3] eqn:Hupload.
  - pose proof (Hmessages _ _ _ Hupload) as Hm3.
    pose proof (Hadds _ _ _ Hupload) as Ha3.
    pose proof (reset_always_reruns env w3) as Hrerun.
    pose proof (reset_session env w3) as Hsession.
    unfold reset in Hrerun, Hsession.
    destruct (delete_vector_db env w3) as [[[]|e4] w4] eqn:Hdelete;
      simpl in Hrerun, Hsession; [discriminate|].
    pose proof (@delete_vector_db_same_messages env _ _ _ Hdelete) as Hm4.
    pose proof (@delete_vector_db_adds _ env Hp _ _ _ Hdelete) as Ha4.
    simpl. split; [eauto|]. split; [|split].
    + rewrite <- Hhistory0. unfold history. now rewrite Hm4, Hm3.
    + destruct Ha3 as (ev3 & Ht3 & Hf3), Ha4 as (ev4 & Ht4 & Hf4).
      exists (ev3 ++ ev4)%list. split.
      * now rewrite Ht4, Ht3, Htrace0, app_assoc.
      * rewrite forallb_app. now rewrite Hf3, Hf4.
    + intros _. split; [congruence|].
      rewrite Hsession. unfold same_messages in Hm3. now rewrite Hm3, Hsome0.
  - pose proof (Hmessages _ _ _ Hupload) as Hm3.
    pose proof (Hadds _ _ _ Hupload) as Ha3.
    simpl. split; [eauto|]. split; [|split].
    + rewrite <- Hhistory0. unfold history. now rewrite Hm3.
    + destruct Ha3 as (ev3 & Ht3 & Hf3). exists ev3. split; [congruence|assumption].
    + intros Hu. rewrite (Hnone Hu) in Hupload. discriminate.
Qed.

End TraceFacts.

(** ** Runs of the script on a session *)

Section SessionFacts.

Variable split_text : string -> list string.
Variable distance : string -> string -> nat.
Variable queries_of : string -> string -> list string.

(** X17 (an upload over an index).  When the session holds an index, the
    run for an uploaded file that opens builds nothing: it does not try to
    remove the directory, and the stored collection, the index handle and
    the temporary directories are as before.  The session then holds the
    new file and its pages next to the index of the old one. *)
Theorem upload_over_index env models choice file_name ps w :
  status w = Ready ->
  let document := mkUpload file_name (Some ps) in
  let r := main split_text distance queries_of env
             (mkInputs models choice (Some document) false None) w in
  fst r = Returned tt /\
  session (snd r)
  = mkSession (Some (history w)) (vector_db (session w)) (Some document)
              (Some (map to_image ps)) /\
  status (snd r) = Ready /\
  chroma_db (snd r) = chroma_db w /\
  temp_dirs (snd r) = temp_dirs w /\
  exists events,
    added w (snd r) events /\
    existsb is_rmtree_chroma_db events = false.
Proof.
  intros Hst. destruct w as [[ms vdb fu pp] st td tr].
  unfold status in Hst; simpl in Hst.
  destruct vdb as [[db|]|]; try discriminate.
  destruct ms as [ms|]; unfold added;
    cbv -[render_messages rendered List.app map existsb is_rmtree_chroma_db];
    erewrite !render_messages_run by reflexivity;
    cbv -[rendered List.app map existsb is_rmtree_chroma_db];
    rewrite <- ?app_assoc; (repeat split; try reflexivity);
    eexists; (split; [reflexivity|]);
    repeat (progress (simpl; rewrite ?existsb_app, ?rendered_no_rmtree));
    reflexivity.
Qed.

(** X18 (a run with nothing to do).  A run with no upload, no click and no
    question returns normally and leaves storage alone.  It gives the
    session its two keys when they are missing and changes nothing else in
    it, and a second such run leaves the session as the first did.  It
    warns once, asking for an upload, when the session holds no index, and
    does not warn when it holds one. *)
Theorem idle_run env models choice w :
  let idle := main split_text distance queries_of env
                (mkInputs models choice None false None) in
  let r := idle w in
  fst r = Returned tt /\
  session (snd r)
  = mkSession (Some (history w))
              (Some (match vector_db (session w) with
                     | Some handle => handle
                     | None => None
                     end))
              (file_upload (session w)) (pdf_pages (session w)) /\
  chroma_db (snd r) = chroma_db w /\
  session (snd (idle (snd r))) = session (snd r) /\
  exists events,
    added w (snd r) events /\
    filter is_st_warning events
    = match status w with
      | Ready => []
      | _ => [StWarning "Upload a PDF file to begin chat..."]
      end.
Proof.
  destruct w as [[[ms|] [[db|]|] fu pp] st td tr];
    unfold added;
    cbv -[render_messages rendered List.app filter is_st_warning];
    erewrite !render_messages_run by reflexivity;
    cbv -[render_messages rendered List.app filter is_st_warning];
    erewrite ?render_messages_run by reflexivity;
    cbv -[rendered List.app filter is_st_warning];
    rewrite <- ?app_assoc;
    (repeat split; try reflexivity);
    eexists; (split; [reflexivity|]);
    repeat (progress (simpl; rewrite ?filter_app, ?rendered_no_warning));
    reflexivity.
Qed.

(** X19 (answers come from the uploaded document).  After an upload that
    went through on a session without an index, with the old directory out
    of the way, every answer [process_question] returns on the new index
    is the model's reply to a prompt whose context consists of chunks of
    the uploaded document only. *)
Theorem answer_grounded_in_upload
    env1 env2 models document question model response w :
  status w = Empty ->
  storage_cleared env1 (chroma_db w) = true ->
  build_ok env1 document = true ->
  let w1 := snd (ingest split_text distance queries_of env1 models document w) in
  fst (process_question distance queries_of env2 question HANDLE model w1)
  = Returned response ->
  vector_db (session w1) = Some (Some HANDLE) /\
  exists context,
    llm env2 model (template (show_documents context) question) = Some response /\
    incl context (chunks_of split_text document) /\
    Forall (has_source (name document)) context.
Proof.
  intros Hst Hclear Hok. cbv zeta.
  destruct (ingest_returns split_text distance queries_of env1 models
              document w Hst Hok) as (w1 & Hc & -> & Hret & Hsame & Hss).
  apply create_vector_db_returns in Hc. destruct Hc as (_ & _ & Hstore).
  simpl in Hstore. rewrite Hclear in Hstore. simpl in Hstore.
  rewrite Hstore in Hsame. rewrite Hss. simpl.
  destruct (process_question_run distance queries_of env2 question HANDLE model
              (snd (after_build document HANDLE w1))) as (events & -> & _).
  simpl. unfold answer_of.
  destruct (llm env2 model (QUERY_PROMPT question)) as [output|]; [|discriminate].
  destruct (context_of distance env2
              (chroma_db (snd (after_build document HANDLE w1)))
              (queries_of question output)) as [what|context] eqn:Hctx; [discriminate|].
  destruct (llm env2 model (template (show_documents context) question))
    as [reply|] eqn:Hreply; [|discriminate].
  intros H. injection H as <-. split; [reflexivity|].
  pose proof (@context_of_grounded distance _ _ _ _ Hctx) as Hin.
  rewrite Hsame in Hin. simpl in Hin.
  exists context. split; [assumption|]. split; [exact Hin|].
  apply Forall_forall. intros d Hd.
  exact (proj1 (Forall_forall _ _) (chunks_of_source split_text document) d (Hin d Hd)).
Qed.

End SessionFacts.

(** ** The facts above on the scenarios *)

Module ScenarioRuns.

Import Scenario.

Lemma ingest_succeeds_iff_build_ok_witness :
  let r := run_ingest all_ok doc1 fresh in
  status fresh = Empty /\
  fst r = Returned tt /\
  status (snd r) = Ready /\
  session (snd r)
  = mkSession (Some []) (Some (Some HANDLE)) (Some doc1)
              (Some [to_image (mkPage (Some "alpha"))]).
Proof.
  cbv zeta. split; [reflexivity|].
  apply (@ingest_succeeds_iff_build_ok sliding_split_text no_distance
           generate_queries all_ok models doc1 fresh).
  reflexivity.
Defined.

Lemma ingest_over_old_collection_witness :
  let old := [mkDocument "alpha" "doc1.pdf"] in
  let r := run_ingest old_directory_locked doc2 new_session in
  (status new_session = Empty /\
   chroma_db new_session = Directory (Some old) /\
   old_rmtree_ok old_directory_locked = false /\
   build_ok old_directory_locked doc2 = true) /\
  fst r = Returned tt /\
  status (snd r) = Ready /\
  chroma_db (snd r)
  = Directory (Some (old ++ chunks_of sliding_split_text doc2)%list) /\
  forall d, In d old -> In d (stored_documents (chroma_db (snd r))).
Proof.
  cbv zeta. split; [repeat split; reflexivity|].
  apply (@ingest_over_old_collection sliding_split_text no_distance
           generate_queries old_directory_locked models doc2 new_session
           [mkDocument "alpha" "doc1.pdf"]);
    reflexivity.
Defined.

Lemma unopenable_upload_when_ready_witness :
  let bad := mkUpload "broken.pdf" None in
  let r := main sliding_split_text no_distance generate_queries all_ok
             (mkInputs models 0 (Some bad) true (Some QUESTION)) indexed in
  status indexed = Ready /\
  fst r = Raised (Exception "pdfplumber: not a PDF") /\
  added indexed (snd r) [Log INFO "Extracting all pages as images"] /\
  file_upload (session (snd r)) = Some bad /\
  vector_db (session (snd r)) = vector_db (session indexed) /\
  pdf_pages (session (snd r)) = pdf_pages (session indexed) /\
  chroma_db (snd r) = chroma_db indexed /\
  history (snd r) = history indexed.
Proof.
  cbv zeta. split; [reflexivity|].
  apply (@unopenable_upload_when_ready sliding_split_text no_distance
           generate_queries all_ok models 0 "broken.pdf" true (Some QUESTION)
           indexed).
  reflexivity.
Defined.

Lemma clean_delete_witness :
  let w' := snd (reset all_ok indexed) in
  first_attempt_ok all_ok (chroma_db indexed) = true /\
  added indexed w'
    (Log INFO "Deleting vector DB"
       :: DELETE_EVENTS (chroma_db indexed) ++ SUCCESS_TAIL) /\
  chroma_db w' = NoDirectory /\
  temp_dirs w' = temp_dirs indexed /\
  session w' = mkSession (messages (session indexed)) None None None.
Proof.
  cbv zeta. split; [reflexivity|].
  apply (@clean_delete all_ok indexed). reflexivity.
Defined.

Lemma process_question_answer_witness :
  fst (process_question no_distance generate_queries all_ok QUESTION HANDLE
         "llama3" indexed)
  = Returned "The sky is blue." /\
  exists output context,
    llm all_ok "llama3" (QUERY_PROMPT QUESTION) = Some output /\
    context_of no_distance all_ok (chroma_db indexed)
      (generate_queries QUESTION output) = inr context /\
    llm all_ok "llama3" (template (show_documents context) QUESTION)
    = Some "The sky is blue." /\
    forall d, In d context -> In d (stored_documents (chroma_db indexed)).
Proof.
  split; [reflexivity|].
  apply (@process_question_answer no_distance generate_queries all_ok
           QUESTION HANDLE "llama3" indexed "The sky is blue.").
  reflexivity.
Defined.

Lemma ready_question_witness :
  let listed := [mkModelInfo "llama3"; mkModelInfo "mistral"] in
  let answer := answer_of no_distance generate_queries all_ok
                  (chroma_db indexed) "mistral" QUESTION in
  let r := main sliding_split_text no_distance generate_queries all_ok
             (mkInputs listed 1 None false (Some QUESTION)) indexed in
  status indexed = Ready /\
  fst r = Returned tt /\
  status (snd r) = Ready /\
  vector_db (session (snd r)) = vector_db (session indexed) /\
  chroma_db (snd r) = chroma_db indexed /\
  history (snd r)
  = (history indexed ++ mkMessage "user" QUESTION
       :: match answer with
          | inr response => [mkMessage "assistant" response]
          | inl _ => []
          end)%list /\
  exists events,
    added indexed (snd r) events /\
    match answer with
    | inr response => In (StMarkdown response) events /\ existsb is_st_error events = false
    | inl what => In (StError what) events
    end.
Proof.
  cbv zeta. split; [reflexivity|].
  apply (@ready_question sliding_split_text no_distance generate_queries
           all_ok (mkModelInfo "llama3") [mkModelInfo "mistral"] 1 QUESTION indexed).
  reflexivity.
Defined.

Lemma ready_question_without_models_witness :
  let r := main sliding_split_text no_distance generate_queries all_ok
             (mkInputs [] 0 None false (Some QUESTION)) indexed in
  status indexed = Ready /\
  fst r = Returned tt /\
  history (snd r) = (history indexed ++ [mkMessage "user" QUESTION])%list /\
  status (snd r) = Ready /\
  chroma_db (snd r) = chroma_db indexed /\
  exists events,
    added indexed (snd r) events /\
    In (StError "NameError: selected_model") events /\
    existsb is_llm_call events = false.
Proof.
  cbv zeta. split; [reflexivity|].
  apply (@ready_question_without_models sliding_split_text no_distance
           generate_queries all_ok 0 QUESTION indexed).
  reflexivity.
Defined.

Lemma upload_over_index_witness :
  let r := main sliding_split_text no_distance generate_queries all_ok
             (mkInputs models 0 (Some doc2) false None) indexed in
  status indexed = Ready /\
  fst r = Returned tt /\
  session (snd r)
  = mkSession (Some (history indexed)) (vector_db (session indexed)) (Some doc2)
              (Some (map to_image [mkPage (Some "beta")])) /\
  status (snd r) = Ready /\
  chroma_db (snd r) = chroma_db indexed /\
  temp_dirs (snd r) = temp_dirs indexed /\
  exists events,
    added indexed (snd r) events /\
    existsb is_rmtree_chroma_db events = false.
Proof.
  cbv zeta. split; [reflexivity|].
  apply (@upload_over_index sliding_split_text no_distance generate_queries
           all_ok models 0 "doc2.pdf" [mkPage (Some "beta")] indexed).
  reflexivity.
Defined.

Lemma answer_grounded_in_upload_witness :
  let w1 := snd (run_ingest all_ok doc1 fresh) in
  (status fresh = Empty /\
   storage_cleared all_ok (chroma_db fresh) = true /\
   build_ok all_ok doc1 = true /\
   fst (process_question no_distance generate_queries all_ok QUESTION HANDLE
          "llama3" w1)
   = Returned "The sky is blue.") /\
  vector_db (session w1) = Some (Some HANDLE) /\
  exists context,
    llm all_ok "llama3" (template (show_documents context) QUESTION)
    = Some "The sky is blue." /\
    incl context (chunks_of sliding_split_text doc1) /\
    Forall (has_source (name doc1)) context.
Proof.
  cbv zeta. split; [repeat split; reflexivity|].
  apply (@answer_grounded_in_upload sliding_split_text no_distance
           generate_queries all_ok all_ok models doc1 QUESTION "llama3"
           "The sky is blue." fresh);
    reflexivity.
Defined.


End ScenarioRuns.
